(** * Voice-Recorder-Online: the upload / convert / download pipeline of [app.py]

    A shallow embedding of [src/app.py] (a Flask application that stages an
    uploaded recording, runs FFmpeg on it and serves the result) together
    with the properties of its specification.

    - [Py]        the Python string operations the handlers use;
    - [Werkzeug]  [werkzeug.utils.secure_filename] (POSIX branch);
    - [Os]        the file store behind [os.path] / [os.remove] / [save];
    - [Exec]      the state-and-exception monad the handlers run in;
    - [App]       [check_ffmpeg], [convert_audio], [upload_audio],
                  [download_file] and its [delete_after_delay] closure. *)

From Stdlib Require Import ZArith Lia Ascii String List Bool.
From Stdlib Require Import DecimalString DecimalPos DecimalZ.
From stdpp Require Import base gmap strings list.

Local Open Scope Z_scope.
Local Open Scope stdpp_scope.

(* ===================================================================== *)
(** ** Python strings *)
(* ===================================================================== *)

Module Py.

(** A Python [str] is a Rocq [string]; the character-level operations work
    on its list of characters. *)
Definition chars (s : string) : list ascii := list_ascii_of_string s.
Definition str (l : list ascii) : string := string_of_list_ascii l.

Definition between (lo hi c : ascii) : bool :=
  (Ascii.leb lo c && Ascii.leb c hi)%bool.

Definition is_upper (c : ascii) : bool := between "A" "Z" c.
Definition is_lower (c : ascii) : bool := between "a" "z" c.
Definition is_digit (c : ascii) : bool := between "0" "9" c.

(** [str.lower] and [str.upper] on the ASCII letters. *)
Definition lower_char (c : ascii) : ascii :=
  if is_upper c then ascii_of_nat (nat_of_ascii c + 32) else c.
Definition upper_char (c : ascii) : ascii :=
  if is_lower c then ascii_of_nat (nat_of_ascii c - 32) else c.

Definition lower (s : string) : string := str (map lower_char (chars s)).
Definition upper (s : string) : string := str (map upper_char (chars s)).

(** The ASCII characters on which [str.isspace] is true: TAB, LF, VT, FF,
    CR, the separators FS, GS, RS, US and the space. *)
Definition is_space (c : ascii) : bool :=
  let n := nat_of_ascii c in
  ((9 <=? n)%nat && (n <=? 13)%nat || (28 <=? n)%nat && (n <=? 32)%nat)%bool.

(** [s.split()] without argument: maximal runs of non-space characters.
    [cur] holds the characters of the current run, last one first. *)
Fixpoint split_from (cur : list ascii) (l : list ascii) : list (list ascii) :=
  match l with
  | [] => match cur with [] => [] | _ => [rev cur] end
  | c :: l' =>
      if is_space c
      then match cur with
           | [] => split_from [] l'
           | _ => rev cur :: split_from [] l'
           end
      else split_from (c :: cur) l'
  end.

Definition split (l : list ascii) : list (list ascii) := split_from [] l.

(** [sep.join(parts)]. *)
Fixpoint join (sep : list ascii) (parts : list (list ascii)) : list ascii :=
  match parts with
  | [] => []
  | [p] => p
  | p :: ps => p ++ sep ++ join sep ps
  end.

(** [s.replace(a, b)] for single characters. *)
Definition replace_char (a b : ascii) (l : list ascii) : list ascii :=
  map (fun c => if Ascii.eqb c a then b else c) l.

(** [s.strip(set)]: drop the characters of [set] from both ends. *)
Fixpoint lstrip (set : ascii -> bool) (l : list ascii) : list ascii :=
  match l with
  | [] => []
  | c :: l' => if set c then lstrip set l' else l
  end.

Definition rstrip (set : ascii -> bool) (l : list ascii) : list ascii :=
  rev (lstrip set (rev l)).

Definition strip (set : ascii -> bool) (l : list ascii) : list ascii :=
  rstrip set (lstrip set l).

(** [s[:n]]. *)
Definition slice_to (n : nat) (s : string) : string := str (firstn n (chars s)).

(** [s.startswith(p)], [s.endswith(p)] and [p in s]. *)
Fixpoint startswith (p l : list ascii) : bool :=
  match p, l with
  | [], _ => true
  | _ :: _, [] => false
  | a :: p', b :: l' => (Ascii.eqb a b && startswith p' l')%bool
  end.

Definition endswith (p l : list ascii) : bool := startswith (rev p) (rev l).

Fixpoint contains_from (p l : list ascii) : bool :=
  (startswith p l ||
   match l with
   | [] => false
   | _ :: l' => contains_from p l'
   end)%bool.

Definition contains (s p : string) : bool := contains_from (chars p) (chars s).

(** [' '.join(cmd)] on a list of strings. *)
Fixpoint join_str (sep : string) (parts : list string) : string :=
  match parts with
  | [] => ""
  | [p] => p
  | p :: ps => p +:+ sep +:+ join_str sep ps
  end.

(** [str(n)] for a non-negative integer. *)
Definition str_of_nat (n : nat) : string := NilZero.string_of_uint (Nat.to_uint n).
Definition str_of_Z (z : Z) : string := NilZero.string_of_int (Z.to_int z).

(** [round(size / (1024 * 1024), 2)] rendered by [str].  The quotient by
    [2^20] is exact in binary floating point for every size below [2^53],
    [round(_, 2)] rounds that exact value to the nearest hundredth, ties to
    even, and [str] prints the shortest decimal that reads back as the
    result: the hundredths without a trailing zero, but always with one
    digit after the point. *)
Definition mb_hundredths (size : Z) : Z :=
  let num := size * 100 in
  let den := 1024 * 1024 in
  let q := num / den in
  let r := num mod den in
  if 2 * r <? den then q
  else if den <? 2 * r then q + 1
  else if Z.even q then q else q + 1.

Definition str_of_hundredths (h : Z) : string :=
  let frac := h mod 100 in
  str_of_Z (h / 100) +:+ "." +:+
  (if frac mod 10 =? 0 then str_of_Z (frac / 10)
   else if frac <? 10 then "0" +:+ str_of_Z frac
   else str_of_Z frac).

Definition str_round_mb (size : Z) : string :=
  str_of_hundredths (mb_hundredths size).

End Py.

Example lower_MP3 : Py.lower "Mp3" = "mp3".
Proof. reflexivity. Qed.

Example split_two : Py.split (Py.chars "  ab  c ") = [Py.chars "ab"; Py.chars "c"].
Proof. reflexivity. Qed.

Example round_mb_eighth : Py.str_round_mb 131072 = "0.12".
Proof. reflexivity. Qed.

Example round_mb_two : Py.str_round_mb 2097152 = "2.0".
Proof. reflexivity. Qed.

Example round_mb_small : Py.str_round_mb 52429 = "0.05".
Proof. reflexivity. Qed.

(* ===================================================================== *)
(** ** [werkzeug.utils.secure_filename] *)
(* ===================================================================== *)

Module Werkzeug.

(** [_filename_ascii_strip_re = re.compile(r"[^A-Za-z0-9_.-]")]: the
    characters the substitution keeps. *)
Definition allowed (c : ascii) : bool :=
  (Py.is_upper c || Py.is_lower c || Py.is_digit c ||
   Ascii.eqb c "_" || Ascii.eqb c "." || Ascii.eqb c "-")%bool.

Definition dot_or_underscore (c : ascii) : bool :=
  (Ascii.eqb c "." || Ascii.eqb c "_")%bool.

(** [secure_filename] on a POSIX host ([os.sep = "/"], no [os.path.altsep],
    [os.name <> "nt"]).  [fold] stands for the first two lines of the
    function, [unicodedata.normalize("NFKD", filename)] followed by
    [.encode("ascii", "ignore").decode("ascii")]. *)
Definition secure_filename (fold : string -> string) (filename : string) : string :=
  let filename := Py.chars (fold filename) in
  let filename := Py.replace_char "/" " " filename in
  let filename := List.filter allowed (Py.join ["_"%char] (Py.split filename)) in
  Py.str (Py.strip dot_or_underscore filename).

End Werkzeug.

Example secure_plain : Werkzeug.secure_filename id "My cool movie.mov" = "My_cool_movie.mov".
Proof. reflexivity. Qed.

Example secure_passwd : Werkzeug.secure_filename id "../../../etc/passwd" = "etc_passwd".
Proof. reflexivity. Qed.

Example secure_dotdot : Werkzeug.secure_filename id ".." = "".
Proof. reflexivity. Qed.

(* ===================================================================== *)
(** ** Exceptions and the file store *)
(* ===================================================================== *)

(** A Python exception: its class, as far as the handlers tell classes
    apart, and the text [str(e)] interpolated into messages. *)
Inductive exn_class :=
| FileNotFoundError
| IsADirectoryError
| NotADirectoryError
| TimeoutExpired
| OtherException.

Record exn := Exn { class_of : exn_class; str_of : string }.

Module Os.

(** What a path of the store names: a regular file with its bytes, or a
    directory with the [st_size] the host reports for it. *)
Inductive node :=
| File (content : string)
| Dir (st_size : Z).

(** The store maps paths, as the program writes them, to nodes.  The
    program only forms paths [UPLOAD_FOLDER/<name>] with a separator-free
    [name]; a path that ends in a separator names the directory stored
    under the path without it. *)
Abbreviation store := (gmap string node).

Definition ends_with_sep (p : string) : bool :=
  Py.endswith ["/"%char] (Py.chars p).

Definition strip_sep (p : string) : string :=
  Py.str (Py.rstrip (fun c => Ascii.eqb c "/") (Py.chars p)).

(** [posixpath.join(a, b)]. *)
Definition path_join (a b : string) : string :=
  if Py.startswith ["/"%char] (Py.chars b) then b
  else if (String.eqb a "" || ends_with_sep a)%bool then a +:+ b
  else a +:+ "/" +:+ b.

Definition enoent (p : string) : exn :=
  Exn FileNotFoundError ("[Errno 2] No such file or directory: '" +:+ p +:+ "'").
Definition eisdir (p : string) : exn :=
  Exn IsADirectoryError ("[Errno 21] Is a directory: '" +:+ p +:+ "'").
Definition enotdir (p : string) : exn :=
  Exn NotADirectoryError ("[Errno 20] Not a directory: '" +:+ p +:+ "'").

(** [os.stat(p)]. *)
Definition stat (σ : store) (p : string) : exn + node :=
  if ends_with_sep p then
    match σ !! strip_sep p with
    | Some (Dir n) => inr (Dir n)
    | Some (File _) => inl (enotdir p)
    | None => inl (enoent p)
    end
  else
    match σ !! p with
    | Some n => inr n
    | None => inl (enoent p)
    end.

(** [os.path.exists(p)]: whether [os.stat] succeeds. *)
Definition exists_ (σ : store) (p : string) : bool :=
  match stat σ p with inr _ => true | inl _ => false end.

(** [os.path.getsize(p)]. *)
Definition getsize (σ : store) (p : string) : exn + Z :=
  match stat σ p with
  | inr (File c) => inr (Z.of_nat (String.length c))
  | inr (Dir n) => inr n
  | inl e => inl e
  end.

(** [os.remove(p)]: unlinks a regular file, raises on anything else. *)
Definition remove (σ : store) (p : string) : exn + store :=
  match stat σ p with
  | inr (File _) => inr (delete p σ)
  | inr (Dir _) => inl (eisdir p)
  | inl e => inl e
  end.

(** [FileStorage.save(dst)]: [open(dst, "wb")] and a copy of the stream.
    The scratch directory is created at import time ([os.makedirs]) and is
    taken to stay present and writable. *)
Definition save (σ : store) (p : string) (bytes : string) : exn + store :=
  if ends_with_sep p then inl (eisdir p)
  else
    match σ !! p with
    | Some (Dir _) => inl (eisdir p)
    | _ => inr (<[p := File bytes]> σ)
    end.

(** What an external process may do to the store: create or overwrite a
    regular file, or unlink one.  It neither makes nor removes
    directories. *)
Inductive file_op :=
| Write (path : string) (content : string)
| Unlink (path : string).

Definition apply_op (σ : store) (op : file_op) : store :=
  match op with
  | Write p c =>
      match σ !! p with
      | Some (Dir _) => σ
      | _ => <[p := File c]> σ
      end
  | Unlink p =>
      match σ !! p with
      | Some (File _) => delete p σ
      | _ => σ
      end
  end.

Definition apply_ops (σ : store) (ops : list file_op) : store :=
  fold_left apply_op ops σ.

End Os.

(* ===================================================================== *)
(** ** The handlers' monad: server state and Python exceptions *)
(* ===================================================================== *)

Module Exec.

(** The JSON object of a successful upload. *)
Record response_data := {
  r_success : bool;
  r_filename : string;
  r_file_size : string;
  r_download_url : string;
  r_format : string;
  r_quality : string }.

(** What goes to the server's standard output. *)
Inductive log_entry :=
| Print (line : string)
| PrintResponse (r : response_data)    (* print(f"Response: {response_data}") *)
| PrintTraceback (e : exn).            (* traceback.print_exc() *)

(** A started [threading.Thread(target=delete_after_delay, daemon=True)]:
    the [time.sleep] it begins with and the two variables its closure
    captures. *)
Record thread := {
  sleep_seconds : Z;
  closure_file_path : string;
  closure_filename : string }.

(** The server between two steps: the store, the console (latest entry
    first), the detached threads that have not run to their end yet, and
    the external commands started so far with their [timeout] (latest
    first). *)
Record state := {
  files : Os.store;
  console : list log_entry;
  threads : list thread;
  spawned : list (list string * option Z) }.

Definition set_files (σ : Os.store) (s : state) : state :=
  {| files := σ; console := console s; threads := threads s; spawned := spawned s |}.
Definition add_console (l : log_entry) (s : state) : state :=
  {| files := files s; console := l :: console s; threads := threads s; spawned := spawned s |}.
Definition add_thread (t : thread) (s : state) : state :=
  {| files := files s; console := console s; threads := t :: threads s; spawned := spawned s |}.
Definition add_spawned (c : list string * option Z) (s : state) : state :=
  {| files := files s; console := console s; threads := threads s; spawned := c :: spawned s |}.

Inductive result (A : Type) :=
| Return (a : A)
| Raise (e : exn).
Arguments Return {A} a.
Arguments Raise {A} e.

Definition M (A : Type) : Type := state -> result A * state.

Definition ret {A} (a : A) : M A := fun s => (Return a, s).
Definition raise {A} (e : exn) : M A := fun s => (Raise e, s).

Definition bind {A B} (m : M A) (k : A -> M B) : M B :=
  fun s =>
    match m s with
    | (Return a, s') => k a s'
    | (Raise e, s') => (Raise e, s')
    end.

(** The sequencing notations [x ← m; k] and [m;; k] are stdpp's. *)
#[export] Instance M_ret : MRet M := @ret.
#[export] Instance M_bind : MBind M := fun A B k m => bind m k.

(** [try: m  except ... as e: handler e]; a handler re-raises the
    exceptions its clauses do not name. *)
Definition try_except {A} (m : M A) (handler : exn -> M A) : M A :=
  fun s =>
    match m s with
    | (Return a, s') => (Return a, s')
    | (Raise e, s') => handler e s'
    end.

Definition lift {A} (f : Os.store -> exn + A) : M A :=
  fun s => match f (files s) with inr a => (Return a, s) | inl e => (Raise e, s) end.

Definition update (f : Os.store -> exn + Os.store) : M unit :=
  fun s => match f (files s) with inr σ => (Return tt, set_files σ s) | inl e => (Raise e, s) end.

Definition print (line : string) : M unit := fun s => (Return tt, add_console (Print line) s).
Definition emit (l : log_entry) : M unit := fun s => (Return tt, add_console l s).

Definition when (b : bool) (m : M unit) : M unit := if b then m else ret tt.

End Exec.

Import Exec.

(* ===================================================================== *)
(** ** [app.py] *)
(* ===================================================================== *)

Module App.

(** [app.config['UPLOAD_FOLDER']]. *)
Definition UPLOAD_FOLDER : string := "static/temp".

(** The [CompletedProcess] of [subprocess.run(..., capture_output=True,
    text=True)]. *)
Record completed := {
  returncode : Z;
  stdout : string;
  stderr : string }.

(** What a request takes from outside the program: the outcome of the
    [ffmpeg -version] probe, the random identifier, the clock, and the
    transcoder, which answers a command line run on a store with the
    outcome of [subprocess.run] (a [CompletedProcess] or the exception it
    raises) and with what the process did to the files meanwhile. *)
Record env := {
  probe : exn + completed;
  uuid4 : string;                    (* str(uuid.uuid4()) *)
  now : string;                      (* datetime.now().strftime("%Y%m%d_%H%M%S") *)
  ffmpeg : list string -> Os.store -> (exn + completed) * list Os.file_op }.

(** [subprocess.run(cmd, capture_output=True, text=True, timeout=t)] on
    the transcoder. *)
Definition subprocess_run (e : env) (cmd : list string) (t : option Z) : M completed :=
  fun s =>
    let '(outcome, ops) := ffmpeg e cmd (files s) in
    let s' := add_spawned (cmd, t) (set_files (Os.apply_ops (files s) ops) s) in
    match outcome with
    | inr r => (Return r, s')
    | inl ex => (Raise ex, s')
    end.

(** [subprocess.run(['ffmpeg', '-version'], capture_output=True, text=True)]. *)
Definition subprocess_probe (e : env) : M completed :=
  fun s =>
    let s' := add_spawned (["ffmpeg"; "-version"], None) s in
    match probe e with
    | inr r => (Return r, s')
    | inl ex => (Raise ex, s')
    end.

Definition check_ffmpeg (e : env) : M bool :=
  try_except
    (result ← subprocess_probe e;
     mret (returncode result =? 0))
    (fun ex =>
       match class_of ex with
       | FileNotFoundError => mret false
       | _ => raise ex
       end).

(** The command line of [convert_audio], [None] in its [else] branch. *)
Definition build_cmd (input_path output_path format_type quality : string)
  : option (list string) :=
  if String.eqb (Py.lower format_type) "mp3" then
    Some ["ffmpeg"; "-i"; input_path;
          "-codec:a"; "libmp3lame";
          "-b:a"; quality +:+ "k";
          "-ar"; "44100";
          "-ac"; "2";
          "-y";
          output_path]
  else if String.eqb (Py.lower format_type) "wav" then
    Some ["ffmpeg"; "-i"; input_path;
          "-codec:a"; "pcm_s16le";
          "-ar"; "44100";
          "-ac"; "2";
          "-y";
          output_path]
  else None.

Definition nonempty (s : string) : bool := negb (String.eqb s "").

Definition convert_audio (e : env) (input_path output_path format_type quality : string)
  : M (bool * string) :=
  try_except
    (print ("Converting: " +:+ input_path +:+ " -> " +:+ output_path);;
     print ("Format: " +:+ format_type +:+ ", Quality: " +:+ quality);;
     input_exists ← lift (fun σ => inr (Os.exists_ σ input_path));
     if negb input_exists then
       mret (false, "Input file not found: " +:+ input_path)
     else
       match build_cmd input_path output_path format_type quality with
       | None => mret (false, "Unsupported format")
       | Some cmd =>
           print ("FFmpeg command: " +:+ Py.join_str " " cmd);;
           result ← subprocess_run e cmd (Some 120);
           print ("FFmpeg return code: " +:+ Py.str_of_Z (returncode result));;
           when (nonempty (stdout result))
             (print ("FFmpeg stdout: " +:+ stdout result));;
           when (nonempty (stderr result))
             (print ("FFmpeg stderr: " +:+ stderr result));;
           output_exists ← lift (fun σ => inr (Os.exists_ σ output_path));
           if ((returncode result =? 0) && output_exists)%bool then
             file_size ← lift (fun σ => Os.getsize σ output_path);
             print ("Output file created: " +:+ output_path +:+ ", Size: "
                    +:+ Py.str_of_Z file_size +:+ " bytes");;
             mret (true, "Conversion successful")
           else
             mret (false, "FFmpeg error: " +:+ stderr result)
       end)
    (fun ex =>
       match class_of ex with
       | TimeoutExpired => mret (false, "Conversion timeout")
       | FileNotFoundError => mret (false, "FFmpeg not found. Please install FFmpeg.")
       | _ =>
           print ("Conversion exception: " +:+ str_of ex);;
           mret (false, "Conversion error: " +:+ str_of ex)
       end).

(** The uploaded part [request.files['audio']] and the request of
    [POST /upload_audio] after Flask has parsed it: a request whose body
    is within [MAX_CONTENT_LENGTH], so that [request.files] can be read. *)
Record file_storage := {
  filename : string;
  stream : string }.

Record upload := {
  audio : option file_storage;       (* request.files.get('audio') *)
  form_format : option string;       (* request.form.get('format') *)
  form_quality : option string }.    (* request.form.get('quality') *)

Inductive body :=
| Json (data : response_data)
| JsonError (error : string)
| Attachment (path content download_name mimetype : string).

Record response := {
  status : Z;
  payload : body }.

Definition json_error (msg : string) (code : Z) : response :=
  {| status := code; payload := JsonError msg |}.

(** Lines 139-144 of [upload_audio], the clean-up of the temporary input. *)
Definition release (temp_input : string) : M unit :=
  try_except
    (update (fun σ => Os.remove σ temp_input);;
     print ("Cleaned up input file: " +:+ temp_input))
    (fun ex => print ("Error cleaning up input file: " +:+ str_of ex)).

Definition temp_name (unique_id : string) : string :=
  "temp_" +:+ unique_id +:+ ".webm".

Definition recording_name (timestamp unique_id format_type : string) : string :=
  "recording_" +:+ timestamp +:+ "_" +:+ unique_id +:+ "." +:+ format_type.

(** The [try] block of [upload_audio]. *)
Definition upload_audio_try (e : env) (rq : upload) : M response :=
  print "=== Audio Upload Request ===";;
  available ← check_ffmpeg e;
  if negb available then
    mret (json_error "FFmpeg is not installed on the server. Please install FFmpeg." 500)
  else
    match audio rq with
    | None => mret (json_error "No audio file provided" 400)
    | Some audio_file =>
        let format_type := Py.lower (default "mp3" (form_format rq)) in
        let quality := default "192" (form_quality rq) in
        print ("Received file: " +:+ filename audio_file);;
        print ("Format: " +:+ format_type +:+ ", Quality: " +:+ quality);;
        if String.eqb (filename audio_file) "" then
          mret (json_error "No file selected" 400)
        else if negb (String.eqb format_type "mp3" || String.eqb format_type "wav") then
          mret (json_error "Invalid format. Use mp3 or wav" 400)
        else
          let unique_id := Py.slice_to 8 (uuid4 e) in
          let timestamp := now e in
          let temp_input := Os.path_join UPLOAD_FOLDER (temp_name unique_id) in
          update (fun σ => Os.save σ temp_input (stream audio_file));;
          print ("Saved input file: " +:+ temp_input);;
          input_size ← lift (fun σ => Os.getsize σ temp_input);
          print ("Input file size: " +:+ Py.str_of_Z input_size +:+ " bytes");;
          let output_filename := recording_name timestamp unique_id format_type in
          let output_path := Os.path_join UPLOAD_FOLDER output_filename in
          print ("Output path: " +:+ output_path);;
          '(success, message) ← convert_audio e temp_input output_path format_type quality;
          release temp_input;;
          if success : bool then
            file_size ← lift (fun σ => Os.getsize σ output_path);
            let file_size_mb := Py.str_round_mb file_size in
            print ("Conversion successful! Output file size: " +:+ file_size_mb +:+ " MB");;
            let response_data :=
              {| r_success := true;
                 r_filename := output_filename;
                 r_file_size := file_size_mb +:+ " MB";
                 r_download_url := "/download/" +:+ output_filename;
                 r_format := Py.upper format_type;
                 r_quality := if String.eqb format_type "mp3"
                              then quality +:+ " kbps" else "Uncompressed" |} in
            emit (PrintResponse response_data);;
            mret {| status := 200; payload := Json response_data |}
          else
            print ("Conversion failed: " +:+ message);;
            mret (json_error ("Conversion failed: " +:+ message) 500)
    end.

Definition upload_audio (e : env) (rq : upload) : M response :=
  try_except (upload_audio_try e rq)
    (fun ex =>
       print ("Upload error: " +:+ str_of ex);;
       emit (PrintTraceback ex);;
       mret (json_error ("Server error: " +:+ str_of ex) 500)).

(** [flask.send_file(path, as_attachment=True, download_name=..., mimetype=...)]
    for a request without [Range] or conditional headers: it stats and
    opens the file and answers 200 with its bytes.  The path is written as
    the handler passes it; Flask resolves it against the application's root
    folder, which is also how the path reads in the text of an error. *)
Definition send_file (path download_name mimetype : string) : M response :=
  lift (fun σ =>
          match Os.stat σ path with
          | inr (Os.File c) =>
              inr {| status := 200; payload := Attachment path c download_name mimetype |}
          | inr (Os.Dir _) => inl (Os.eisdir path)
          | inl ex => inl ex
          end).

(** [threading.Thread(target=delete_after_delay, daemon=True).start()]:
    the thread is started and never joined. *)
Definition start_thread (t : thread) : M unit :=
  fun s => (Return tt, add_thread t s).

(** The closure [delete_after_delay] once its [time.sleep(300)] is over. *)
Definition delete_after_delay (t : thread) : M unit :=
  try_except
    (present ← lift (fun σ => inr (Os.exists_ σ (closure_file_path t)));
     when present
       (update (fun σ => Os.remove σ (closure_file_path t));;
        print ("Deleted file after download: " +:+ closure_filename t)))
    (fun ex => print ("Error deleting file: " +:+ str_of ex)).

Section Download.

(** The Unicode folding at the head of [secure_filename]. *)
Variable fold : string -> string.

Definition download_file (filename : string) : M response :=
  try_except
    (let file_path := Os.path_join UPLOAD_FOLDER (Werkzeug.secure_filename fold filename) in
     print ("Download requested: " +:+ filename);;
     print ("File path: " +:+ file_path);;
     present ← lift (fun σ => inr (Os.exists_ σ file_path));
     if negb present then
       print ("File not found: " +:+ file_path);;
       mret (json_error "File not found" 404)
     else
       print ("Serving file: " +:+ file_path);;
       start_thread {| sleep_seconds := 300;
                       closure_file_path := file_path;
                       closure_filename := filename |};;
       send_file file_path filename "application/octet-stream")
    (fun ex =>
       print ("Download error: " +:+ str_of ex);;
       mret (json_error ("Download error: " +:+ str_of ex) 500)).

End Download.

End App.

Import App.

(* ===================================================================== *)
(** ** Worked requests *)
(* ===================================================================== *)

Module Demo.

Definition done_ok : completed :=
  {| returncode := 0; stdout := ""; stderr := "" |}.

(** A transcoder that writes seven bytes to its last argument. *)
Definition good_ffmpeg (cmd : list string) (σ : Os.store)
  : (exn + completed) * list Os.file_op :=
  (inr done_ok, [Os.Write (List.last cmd "") "ID3data"]).

Definition host (run : list string -> Os.store -> (exn + completed) * list Os.file_op) : env :=
  {| probe := inr done_ok;
     uuid4 := "3f2a9c1e-1111-4222-8333-444455556666";
     now := "20240102_030405";
     ffmpeg := run |}.

Definition blob (fmt quality : option string) : upload :=
  {| audio := Some {| filename := "blob"; stream := "webmbytes" |};
     form_format := fmt;
     form_quality := quality |}.

(** A server that has just started: only the scratch directory exists. *)
Definition fresh : state :=
  {| files := {[ "static/temp" := Os.Dir 4096 ]};
     console := [];
     threads := [];
     spawned := [] |}.

Definition temp_path : string := "static/temp/temp_3f2a9c1e.webm".
Definition mp3_name : string := "recording_20240102_030405_3f2a9c1e.mp3".
Definition mp3_path : string := "static/temp/recording_20240102_030405_3f2a9c1e.mp3".

End Demo.

Example upload_mp3_128 :
  fst (upload_audio (Demo.host Demo.good_ffmpeg) (Demo.blob (Some "MP3") (Some "128")) Demo.fresh)
  = Return {| status := 200;
              payload := Json {| r_success := true;
                                 r_filename := Demo.mp3_name;
                                 r_file_size := "0.0 MB";
                                 r_download_url := "/download/" +:+ Demo.mp3_name;
                                 r_format := "MP3";
                                 r_quality := "128 kbps" |} |}.
Proof. vm_compute. reflexivity. Qed.

Example upload_ogg :
  fst (upload_audio (Demo.host Demo.good_ffmpeg) (Demo.blob (Some "ogg") None) Demo.fresh)
  = Return (json_error "Invalid format. Use mp3 or wav" 400).
Proof. vm_compute. reflexivity. Qed.

(* ===================================================================== *)
(** ** Strings and paths *)
(* ===================================================================== *)

Section StringFacts.

Lemma chars_app (a b : string) : Py.chars (a +:+ b) = Py.chars a ++ Py.chars b.
Proof.
  induction a as [|c a IH]; simpl; [reflexivity|].
  unfold Py.chars in *. simpl. now rewrite IH.
Qed.

Lemma str_chars (s : string) : Py.str (Py.chars s) = s.
Proof. apply string_of_list_ascii_of_string. Qed.

Lemma chars_str (l : list ascii) : Py.chars (Py.str l) = l.
Proof. apply list_ascii_of_string_of_list_ascii. Qed.

Lemma chars_inj (a b : string) : Py.chars a = Py.chars b -> a = b.
Proof. intros H. rewrite <- (str_chars a), <- (str_chars b). now rewrite H. Qed.

Lemma append_assoc (x y z : string) : (x +:+ y) +:+ z = x +:+ y +:+ z.
Proof.
  induction x as [|c x IH]; [reflexivity|].
  change (String c ((x +:+ y) +:+ z) = String c (x +:+ y +:+ z)). now rewrite IH.
Qed.

(** A path whose last character is not the separator. *)
Lemma ends_with_sep_snoc (l : list ascii) (c : ascii) (p : string) :
  Py.chars p = l ++ [c] -> c <> "/"%char -> Os.ends_with_sep p = false.
Proof.
  intros Hp Hc. unfold Os.ends_with_sep, Py.endswith. rewrite Hp, rev_app_distr.
  change (Py.startswith (rev ["/"%char]) (rev [c] ++ rev l))
    with (Ascii.eqb "/" c && true)%bool.
  destruct (Ascii.eqb_spec "/" c) as [E|_]; [congruence|reflexivity].
Qed.

Lemma ends_with_sep_tail (a : string) (l : list ascii) (c : ascii) (b : string) :
  Py.chars b = l ++ [c] -> c <> "/"%char -> Os.ends_with_sep (a +:+ b) = false.
Proof.
  intros Hb Hc. apply (ends_with_sep_snoc (Py.chars a ++ l) c); [|exact Hc].
  now rewrite chars_app, Hb, app_assoc.
Qed.

Lemma ends_with_sep_webm (a : string) : Os.ends_with_sep (a +:+ ".webm") = false.
Proof.
  apply (ends_with_sep_snoc (Py.chars a ++ Py.chars ".web") "m").
  - rewrite chars_app, <- app_assoc. reflexivity.
  - discriminate.
Qed.

Lemma temp_path_eq (unique_id : string) :
  Os.path_join UPLOAD_FOLDER (temp_name unique_id)
  = ("static/temp/temp_" +:+ unique_id) +:+ ".webm".
Proof.
  unfold temp_name. change ("temp_" +:+ unique_id +:+ ".webm") with
    (String "t" ("emp_" +:+ unique_id +:+ ".webm")).
  rewrite append_assoc. reflexivity.
Qed.

Lemma recording_path_eq (timestamp unique_id format_type : string) :
  Os.path_join UPLOAD_FOLDER (recording_name timestamp unique_id format_type)
  = "static/temp/" +:+ recording_name timestamp unique_id format_type.
Proof. reflexivity. Qed.

Lemma temp_not_sep (unique_id : string) :
  Os.ends_with_sep (Os.path_join UPLOAD_FOLDER (temp_name unique_id)) = false.
Proof. rewrite temp_path_eq. apply ends_with_sep_webm. Qed.

(** The two names of one request differ: they part at their first letter. *)
Lemma temp_recording_differ (timestamp unique_id format_type : string) :
  Os.path_join UPLOAD_FOLDER (temp_name unique_id)
  <> Os.path_join UPLOAD_FOLDER (recording_name timestamp unique_id format_type).
Proof. rewrite temp_path_eq, recording_path_eq. simpl. discriminate. Qed.

End StringFacts.

(* ===================================================================== *)
(** ** Running the handlers step by step *)
(* ===================================================================== *)

Ltac unfold_M :=
  unfold mbind, mret, M_bind, M_ret, bind, ret, raise, try_except, print, emit,
    lift, update, when, start_thread in *.

Ltac proj :=
  cbn [files console threads spawned set_files add_console add_thread
       add_spawned fst snd negb] in *.

(** What [check_ffmpeg] makes of the probe. *)
Definition probe_verdict (e : env) : result bool :=
  match probe e with
  | inr r => Return (returncode r =? 0)
  | inl ex =>
      match class_of ex with
      | FileNotFoundError => Return false
      | _ => Raise ex
      end
  end.

(** What [convert_audio] makes of a run of the transcoder, given whether
    the output path exists afterwards. *)
Definition verdict (outcome : exn + completed) (output_exists : bool) : bool * string :=
  match outcome with
  | inr r =>
      if ((returncode r =? 0) && output_exists)%bool
      then (true, "Conversion successful")
      else (false, "FFmpeg error: " +:+ stderr r)
  | inl ex =>
      match class_of ex with
      | TimeoutExpired => (false, "Conversion timeout")
      | FileNotFoundError => (false, "FFmpeg not found. Please install FFmpeg.")
      | _ => (false, "Conversion error: " +:+ str_of ex)
      end
  end.

Section Steps.

Variable e : env.

Lemma check_ffmpeg_run (s : state) :
  check_ffmpeg e s = (probe_verdict e, add_spawned (["ffmpeg"; "-version"], None) s).
Proof.
  unfold check_ffmpeg, subprocess_probe, probe_verdict. unfold_M.
  destruct (probe e) as [ex|r]; [|reflexivity].
  destruct (class_of ex); reflexivity.
Qed.

Lemma exists_getsize (σ : Os.store) (p : string) :
  Os.exists_ σ p = true -> exists n, Os.getsize σ p = inr n.
Proof.
  unfold Os.exists_, Os.getsize. destruct (Os.stat σ p) as [ex|[c|n]]; intros H.
  - discriminate.
  - eauto.
  - eauto.
Qed.

(** [convert_audio] always returns a pair; it starts the transcoder only
    when the input exists and the format has a command line, and then its
    answer is the [verdict] on that run. *)
Lemma convert_audio_run (inp out fmt q : string) (s : state) :
  exists b m s',
    convert_audio e inp out fmt q s = (Return (b, m), s') /\
    threads s' = threads s /\
    (((Os.exists_ (files s) inp = false \/ build_cmd inp out fmt q = None) /\
      b = false /\ files s' = files s /\ spawned s' = spawned s)
     \/
     (exists cmd,
        Os.exists_ (files s) inp = true /\
        build_cmd inp out fmt q = Some cmd /\
        files s' = Os.apply_ops (files s) (snd (ffmpeg e cmd (files s))) /\
        spawned s' = (cmd, Some 120) :: spawned s /\
        (b, m) = verdict (fst (ffmpeg e cmd (files s))) (Os.exists_ (files s') out) /\
        (forall r, fst (ffmpeg e cmd (files s)) = inr r -> nonempty (stderr r) = true ->
                   In (Print ("FFmpeg stderr: " +:+ stderr r)) (console s')))).
Proof.
  unfold convert_audio, subprocess_run. unfold_M. proj.
  destruct (Os.exists_ (files s) inp) eqn:Hin; proj.
  2:{ do 3 eexists. split; [reflexivity|]. split; [reflexivity|].
      left. repeat split. now left. }
  destruct (build_cmd inp out fmt q) as [cmd|] eqn:Hcmd.
  2:{ do 3 eexists. split; [reflexivity|]. split; [reflexivity|].
      left. repeat split. now right. }
  proj. destruct (ffmpeg e cmd (files s)) as [outcome ops] eqn:Hrun.
  destruct outcome as [ex|r]; proj.
  - destruct (class_of ex) eqn:Hclass;
      (do 3 eexists; split; [reflexivity|]; split; [reflexivity|]);
      right; exists cmd; rewrite Hrun; proj;
      (do 4 (split; [reflexivity|]));
      (split; [unfold verdict; rewrite Hclass; reflexivity | intros r Hr; discriminate]).
  - destruct (nonempty (stdout r)), (nonempty (stderr r)) eqn:Hse; unfold_M; proj;
      destruct (Os.exists_ (Os.apply_ops (files s) ops) out) eqn:Hout;
      destruct (returncode r =? 0) eqn:Hrc; cbn [andb]; proj;
      try (destruct (exists_getsize _ _ Hout) as [n Hn]; rewrite Hn; proj);
      (do 3 eexists; split; [reflexivity|]; split; [reflexivity|]);
      right; exists cmd; rewrite Hrun; proj;
      (do 4 (split; [reflexivity|]));
      (split; [unfold verdict; rewrite Hout, Hrc; reflexivity |]);
      intros r' Hr Hne; injection Hr as <-; try congruence;
      simpl; auto.
Qed.

(** The clean-up never raises: it removes a regular file and otherwise
    leaves the store as it is, and prints one line in either case. *)
Lemma release_run (p : string) (s : state) :
  release p s =
  match Os.remove (files s) p with
  | inr σ => (Return tt, add_console (Print ("Cleaned up input file: " +:+ p)) (set_files σ s))
  | inl ex => (Return tt, add_console (Print ("Error cleaning up input file: " +:+ str_of ex)) s)
  end.
Proof.
  unfold release. unfold_M. destruct (Os.remove (files s) p); reflexivity.
Qed.

End Steps.

(* ===================================================================== *)
(** ** The verdict of [convert_audio] *)
(* ===================================================================== *)

Module Conversion.

(** A transcoder that exits with code zero and writes nothing. *)
Definition silent_ffmpeg (cmd : list string) (σ : Os.store)
  : (exn + completed) * list Os.file_op :=
  (inr Demo.done_ok, []).

(** The store of [Demo.fresh] once the upload has been saved. *)
Definition staged : state :=
  set_files (<[Demo.temp_path := Os.File "webmbytes"]> (files Demo.fresh)) Demo.fresh.

Definition mp3_cmd (quality : string) : list string :=
  ["ffmpeg"; "-i"; Demo.temp_path; "-codec:a"; "libmp3lame"; "-b:a"; quality +:+ "k";
   "-ar"; "44100"; "-ac"; "2"; "-y"; Demo.mp3_path].

End Conversion.

(** C2. [convert_audio] answers [(True, _)] exactly when the transcoder was
    run (the input exists and the format has a command line), the process
    completed with return code zero and the output path exists in the store
    the process left behind.  A completed run with return code zero whose
    output path does not exist is answered [(False, "FFmpeg error: " +
    stderr)], the process-error answer. *)
Theorem convert_audio_success_iff (e : env) (inp out fmt q : string) (s : state) :
  ((exists m s', convert_audio e inp out fmt q s = (Return (true, m), s'))
   <->
   (Os.exists_ (files s) inp = true /\
    exists cmd r,
      build_cmd inp out fmt q = Some cmd /\
      fst (ffmpeg e cmd (files s)) = inr r /\
      returncode r = 0 /\
      Os.exists_ (Os.apply_ops (files s) (snd (ffmpeg e cmd (files s)))) out = true))
  /\
  (forall cmd r,
      Os.exists_ (files s) inp = true ->
      build_cmd inp out fmt q = Some cmd ->
      fst (ffmpeg e cmd (files s)) = inr r ->
      returncode r = 0 ->
      Os.exists_ (Os.apply_ops (files s) (snd (ffmpeg e cmd (files s)))) out = false ->
      fst (convert_audio e inp out fmt q s)
      = Return (false, "FFmpeg error: " +:+ stderr r)).
Proof.
  destruct (convert_audio_run e inp out fmt q s)
    as (b & m & s' & Heq & _ &
        [(Hno & Hb & _ & _) | (cmd & Hin & Hcmd & Hfiles & _ & Hv & _)]).
  - subst b. split.
    + split.
      * intros (m' & s'' & H). rewrite Heq in H. discriminate.
      * intros (Hin & cmd & r & Hcmd & _). destruct Hno; congruence.
    + intros cmd r Hin Hcmd. destruct Hno; congruence.
  - rewrite Hfiles in Hv. split.
    + split.
      * intros (m' & s'' & H). rewrite Heq in H. injection H as Hb _ _. subst b.
        split; [exact Hin|]. exists cmd.
        unfold verdict in Hv.
        destruct (fst (ffmpeg e cmd (files s))) as [ex|r] eqn:Hout.
        -- destruct (class_of ex); discriminate.
        -- exists r. destruct (returncode r =? 0) eqn:Hrc; [|discriminate].
           destruct (Os.exists_ _ out) eqn:Hex; [|discriminate].
           repeat split; try reflexivity; [exact Hcmd|]. now apply Z.eqb_eq.
      * intros (_ & cmd' & r & Hcmd' & Hrun & Hrc & Hex).
        assert (cmd' = cmd) by congruence. subst cmd'.
        rewrite Hrun, Hex in Hv. unfold verdict in Hv.
        rewrite (proj2 (Z.eqb_eq _ _) Hrc) in Hv. injection Hv as Hb Hm. subst b.
        eauto.
    + intros cmd' r _ Hcmd' Hrun Hrc Hex.
      assert (cmd' = cmd) by congruence. subst cmd'.
      rewrite Hrun, Hex in Hv. unfold verdict in Hv.
      rewrite andb_false_r in Hv. rewrite Heq. cbn [fst]. now rewrite Hv.
Qed.

Lemma convert_audio_success_iff_witness :
  fst (convert_audio (Demo.host Conversion.silent_ffmpeg)
         Demo.temp_path Demo.mp3_path "mp3" "192" Conversion.staged)
  = Return (false, "FFmpeg error: " +:+ stderr Demo.done_ok).
Proof.
  apply (proj2 (convert_audio_success_iff (Demo.host Conversion.silent_ffmpeg)
                  Demo.temp_path Demo.mp3_path "mp3" "192" Conversion.staged)
           (Conversion.mp3_cmd "192") Demo.done_ok);
    vm_compute; reflexivity.
Defined.

(* ===================================================================== *)
(** ** The store under the handlers *)
(* ===================================================================== *)

Section StoreFacts.

Implicit Types (σ : Os.store) (p : string).

Definition not_dir σ p : Prop := forall n, σ !! p <> Some (Os.Dir n).

Lemma stat_plain σ p :
  Os.ends_with_sep p = false ->
  Os.stat σ p = match σ !! p with Some n => inr n | None => inl (Os.enoent p) end.
Proof. intros H. unfold Os.stat. now rewrite H. Qed.

Lemma exists_plain σ p :
  Os.ends_with_sep p = false ->
  Os.exists_ σ p = match σ !! p with Some _ => true | None => false end.
Proof. intros H. unfold Os.exists_. rewrite stat_plain by exact H. now destruct (σ !! p). Qed.

(** A process leaves directories alone and makes none. *)
Lemma apply_op_not_dir σ op p : not_dir σ p -> not_dir (Os.apply_op σ op) p.
Proof.
  intros H n. destruct op as [w c|u]; simpl.
  - destruct (σ !! w) as [[c'|n']|] eqn:Hw; try apply H;
      (destruct (decide (w = p)) as [->|Hne];
       [rewrite lookup_insert_eq; discriminate | rewrite lookup_insert_ne by exact Hne; apply H]).
  - destruct (σ !! u) as [[c'|n']|] eqn:Hu; try apply H.
    destruct (decide (u = p)) as [->|Hne];
      [rewrite lookup_delete_eq; discriminate | rewrite lookup_delete_ne by exact Hne; apply H].
Qed.

Lemma apply_ops_not_dir ops σ p : not_dir σ p -> not_dir (Os.apply_ops σ ops) p.
Proof.
  revert σ. induction ops as [|op ops IH]; intros σ H; [exact H|].
  apply IH, apply_op_not_dir, H.
Qed.

(** Removing a path that names no directory: the path is gone afterwards,
    whether [os.remove] unlinked a file or raised. *)
Lemma remove_plain σ p :
  Os.ends_with_sep p = false -> not_dir σ p ->
  match Os.remove σ p with inr σ' => σ' | inl _ => σ end = delete p σ.
Proof.
  intros Hp Hd. unfold Os.remove. rewrite stat_plain by exact Hp.
  destruct (σ !! p) as [[c|n]|] eqn:E.
  - reflexivity.
  - now destruct (Hd n).
  - symmetry. now apply delete_id.
Qed.

Lemma stat_delete_ne σ p q :
  Os.ends_with_sep q = false -> p <> q ->
  Os.stat (delete p σ) q = Os.stat σ q.
Proof. intros Hq Hne. rewrite !stat_plain by exact Hq. now rewrite lookup_delete_ne. Qed.

End StoreFacts.

(* ===================================================================== *)
(** ** One upload, from staging to the response *)
(* ===================================================================== *)

(** The names [upload_audio] binds once the request is validated. *)
Definition requested_format (rq : upload) : string :=
  Py.lower (default "mp3" (form_format rq)).
Definition requested_quality (rq : upload) : string :=
  default "192" (form_quality rq).
Definition unique_id (e : env) : string := Py.slice_to 8 (uuid4 e).
Definition temp_input (e : env) : string :=
  Os.path_join UPLOAD_FOLDER (temp_name (unique_id e)).
Definition output_filename (e : env) (rq : upload) : string :=
  recording_name (now e) (unique_id e) (requested_format rq).
Definition output_path (e : env) (rq : upload) : string :=
  Os.path_join UPLOAD_FOLDER (output_filename e rq).

Definition supported (format_type : string) : bool :=
  (String.eqb format_type "mp3" || String.eqb format_type "wav")%bool.

(** The store in which the transcoder is started, and the run itself. *)
Definition staged_store (e : env) (rq : upload) (af : file_storage) (s : state) : Os.store :=
  <[temp_input e := Os.File (stream af)]> (files s).

Definition command (e : env) (rq : upload) : option (list string) :=
  build_cmd (temp_input e) (output_path e rq) (requested_format rq) (requested_quality rq).

(** The body of the 200 response for an output of [size] bytes. *)
Definition success_data (e : env) (rq : upload) (size : Z) : response_data :=
  {| r_success := true;
     r_filename := output_filename e rq;
     r_file_size := Py.str_round_mb size +:+ " MB";
     r_download_url := "/download/" +:+ output_filename e rq;
     r_format := Py.upper (requested_format rq);
     r_quality := if String.eqb (requested_format rq) "mp3"
                  then requested_quality rq +:+ " kbps" else "Uncompressed" |}.

Section Staged.

Lemma supported_cases (f : string) : supported f = true -> f = "mp3" \/ f = "wav".
Proof.
  unfold supported. intros H. apply orb_true_iff in H as [H|H];
    apply String.eqb_eq in H; auto.
Qed.

Lemma output_not_sep (e : env) (rq : upload) :
  supported (requested_format rq) = true -> Os.ends_with_sep (output_path e rq) = false.
Proof.
  intros H. unfold output_path, output_filename. rewrite recording_path_eq.
  unfold recording_name.
  destruct (supported_cases _ H) as [-> | ->]; rewrite <- !append_assoc.
  - apply (ends_with_sep_tail _ (Py.chars "mp") "3"); [reflexivity|discriminate].
  - apply (ends_with_sep_tail _ (Py.chars "wa") "v"); [reflexivity|discriminate].
Qed.

Lemma command_supported (e : env) (rq : upload) :
  supported (requested_format rq) = true -> exists cmd, command e rq = Some cmd.
Proof.
  intros H. unfold command, build_cmd.
  destruct (supported_cases _ H) as [-> | ->]; eexists; reflexivity.
Qed.

End Staged.

(** The answer [upload_audio] gives before it stages anything, if any:
    the probe and the three validations, in the order of the source. *)
Definition early_response (e : env) (rq : upload) : option response :=
  match probe_verdict e with
  | Raise ex => Some (json_error ("Server error: " +:+ str_of ex) 500)
  | Return false =>
      Some (json_error "FFmpeg is not installed on the server. Please install FFmpeg." 500)
  | Return true =>
      match audio rq with
      | None => Some (json_error "No audio file provided" 400)
      | Some audio_file =>
          if String.eqb (filename audio_file) "" then
            Some (json_error "No file selected" 400)
          else if negb (supported (requested_format rq)) then
            Some (json_error "Invalid format. Use mp3 or wav" 400)
          else None
      end
  end.

Definition probe_call : list string * option Z := (["ffmpeg"; "-version"], None).

Section Upload.

Variables (e : env) (rq : upload) (s : state).

(** An early answer leaves the store and the threads as they were. *)
Lemma upload_early (r : response) :
  early_response e rq = Some r ->
  exists s',
    upload_audio e rq s = (Return r, s') /\
    files s' = files s /\ threads s' = threads s /\
    spawned s' = probe_call :: spawned s.
Proof.
  unfold early_response, upload_audio, upload_audio_try. unfold_M.
  rewrite check_ffmpeg_run. destruct (probe_verdict e) as [[|]|ex]; proj.
  - destruct (audio rq) as [af|]; proj.
    + fold (requested_format rq). fold (supported (requested_format rq)).
      destruct (String.eqb (filename af) "").
      * intros [= <-]. eexists. split; [reflexivity|]. now repeat split.
      * destruct (supported (requested_format rq)); proj.
        -- discriminate.
        -- intros [= <-]. eexists. split; [reflexivity|]. now repeat split.
    + intros [= <-]. eexists. split; [reflexivity|]. now repeat split.
  - intros [= <-]. eexists. split; [reflexivity|]. now repeat split.
  - intros [= <-]. eexists. split; [reflexivity|]. now repeat split.
Qed.

Lemma early_none :
  early_response e rq = None ->
  probe_verdict e = Return true /\
  exists af, audio rq = Some af /\ String.eqb (filename af) "" = false /\
             supported (requested_format rq) = true.
Proof.
  unfold early_response. destruct (probe_verdict e) as [[|]|ex]; try discriminate.
  destruct (audio rq) as [af|]; try discriminate.
  destruct (String.eqb (filename af) "") eqn:Hn; try discriminate.
  destruct (supported (requested_format rq)) eqn:Hs; try discriminate.
  intros _. split; [reflexivity|]. now exists af.
Qed.

(** A validated upload whose temporary path is taken by a directory fails
    at [audio_file.save]. *)
Lemma upload_save_fails (n : Z) :
  early_response e rq = None ->
  files s !! temp_input e = Some (Os.Dir n) ->
  exists s',
    upload_audio e rq s
    = (Return (json_error ("Server error: " +:+ str_of (Os.eisdir (temp_input e))) 500), s') /\
    files s' = files s /\ threads s' = threads s /\
    spawned s' = probe_call :: spawned s.
Proof.
  intros Hearly Hdir. destruct (early_none Hearly) as (Hp & af & Ha & Hn & Hs).
  unfold upload_audio, upload_audio_try. unfold_M.
  rewrite check_ffmpeg_run, Hp. proj. rewrite Ha. proj. rewrite Hn.
  fold (requested_format rq). fold (supported (requested_format rq)). rewrite Hs. proj.
  fold (unique_id e). fold (temp_input e).
  unfold Os.save. unfold temp_input at 1. rewrite temp_not_sep. fold (temp_input e).
  rewrite Hdir. proj.
  eexists. split; [reflexivity|]. now repeat split.
Qed.

End Upload.

(** A validated upload whose temporary path is free of directories: the
    input is saved, the transcoder runs once on the staged store, the input
    is removed, and the response follows the [verdict]. *)
Section StagedUpload.

Variables (e : env) (rq : upload) (s : state).

Lemma upload_staged (af : file_storage) :
  early_response e rq = None ->
  audio rq = Some af ->
  not_dir (files s) (temp_input e) ->
  exists cmd b m resp s',
    command e rq = Some cmd /\
    upload_audio e rq s = (Return resp, s') /\
    files s' = delete (temp_input e)
                 (Os.apply_ops (staged_store e rq af s)
                    (snd (ffmpeg e cmd (staged_store e rq af s)))) /\
    threads s' = threads s /\
    spawned s' = (cmd, Some 120) :: probe_call :: spawned s /\
    (b, m) = verdict (fst (ffmpeg e cmd (staged_store e rq af s)))
                     (Os.exists_ (files s') (output_path e rq)) /\
    (if b then exists size, Os.getsize (files s') (output_path e rq) = inr size /\
                resp = {| status := 200; payload := Json (success_data e rq size) |}
     else resp = json_error ("Conversion failed: " +:+ m) 500) /\
    (forall r, fst (ffmpeg e cmd (staged_store e rq af s)) = inr r ->
               nonempty (stderr r) = true ->
               In (Print ("FFmpeg stderr: " +:+ stderr r)) (console s')).
Proof.
  intros Hearly Ha' Hfree. destruct (early_none e rq Hearly) as (Hp & af' & Ha & Hn & Hs).
  assert (af' = af) by congruence. subst af'.
  destruct (command_supported e rq Hs) as [cmd Hcmd]. exists cmd.
  unfold upload_audio, upload_audio_try. unfold_M.
  rewrite check_ffmpeg_run, Hp. proj. rewrite Ha. proj. rewrite Hn.
  fold (requested_format rq). fold (supported (requested_format rq)). rewrite Hs. proj.
  fold (requested_quality rq). fold (unique_id e). fold (temp_input e).
  fold (output_filename e rq). fold (output_path e rq).
  assert (Hsep : Os.ends_with_sep (temp_input e) = false) by apply temp_not_sep.
  assert (Hsave : Os.save (files s) (temp_input e) (stream af) = inr (staged_store e rq af s)).
  { unfold Os.save. rewrite Hsep. unfold staged_store.
    destruct (files s !! temp_input e) as [[c|n]|] eqn:E; try reflexivity.
    now destruct (Hfree n). }
  rewrite Hsave. proj.
  assert (Hsize : Os.getsize (staged_store e rq af s) (temp_input e)
                  = inr (Z.of_nat (String.length (stream af)))).
  { unfold Os.getsize. rewrite stat_plain by exact Hsep. unfold staged_store.
    now rewrite lookup_insert_eq. }
  rewrite Hsize. proj.
  match goal with |- context [convert_audio e ?i ?o ?f ?q ?S] =>
    destruct (convert_audio_run e i o f q S)
      as (b & m & sc & Heq & Hth & [(Hno & _) | (cmd' & Hin & Hcmd' & Hfiles & Hsp & Hv & Hlog)]);
    proj
  end.
  { exfalso. destruct Hno as [Hno|Hno].
    - rewrite exists_plain in Hno by exact Hsep. unfold staged_store in Hno.
      rewrite lookup_insert_eq in Hno. discriminate.
    - unfold command in Hcmd. congruence. }
  assert (cmd' = cmd) by (unfold command in Hcmd; congruence). subst cmd'.
  rewrite Heq. rewrite release_run.
  assert (Hnd : not_dir (files sc) (temp_input e)).
  { rewrite Hfiles. apply apply_ops_not_dir. intros n. unfold staged_store.
    rewrite lookup_insert_eq. discriminate. }
  pose proof (remove_plain (files sc) (temp_input e) Hsep Hnd) as Hrm.
  assert (Hrel : exists line,
             match Os.remove (files sc) (temp_input e) with
             | inl ex =>
                 (Return (), add_console
                    (Print ("Error cleaning up input file: " +:+ str_of ex)) sc)
             | inr σ =>
                 (Return (), add_console
                    (Print ("Cleaned up input file: " +:+ temp_input e)) (set_files σ sc))
             end
             = (Return (), add_console (Print line)
                             (set_files (delete (temp_input e) (files sc)) sc))).
  { destruct (Os.remove (files sc) (temp_input e)) as [ex|σ]; eexists.
    - rewrite <- Hrm. destruct sc; reflexivity.
    - rewrite Hrm. reflexivity. }
  destruct Hrel as [line ->]. proj.
  assert (Hosep := output_not_sep e rq Hs).
  assert (Hne : temp_input e <> output_path e rq) by apply temp_recording_differ.
  assert (Hex : Os.exists_ (delete (temp_input e) (files sc)) (output_path e rq)
                = Os.exists_ (files sc) (output_path e rq)).
  { unfold Os.exists_. now rewrite stat_delete_ne. }
  exists b, m. destruct b.
  - assert (Hout : Os.exists_ (files sc) (output_path e rq) = true).
    { unfold verdict in Hv.
      destruct (fst (ffmpeg e cmd (staged_store e rq af s))) as [ex|r].
      - destruct (class_of ex); discriminate.
      - destruct (Os.exists_ (files sc) (output_path e rq)); [reflexivity|].
        rewrite andb_false_r in Hv. discriminate. }
    rewrite <- Hex in Hout. destruct (exists_getsize _ _ Hout) as [size Hsz].
    proj. rewrite Hsz. proj. do 2 eexists.
    split; [exact Hcmd|]. split; [reflexivity|]. proj.
    split; [now rewrite Hfiles|]. split; [exact Hth|]. split; [exact Hsp|].
    split; [now rewrite Hex|]. split; [exists size; split; [exact Hsz|reflexivity]|].
    intros r Hr Hne'. simpl. right. right. right. now apply Hlog.
  - proj. do 2 eexists.
    split; [exact Hcmd|]. split; [reflexivity|]. proj.
    split; [now rewrite Hfiles|]. split; [exact Hth|]. split; [exact Hsp|].
    split; [now rewrite Hex|]. split; [reflexivity|].
    intros r Hr Hne'. simpl. right. right. now apply Hlog.
Qed.
End StagedUpload.

(* ===================================================================== *)
(** ** What every upload has in common *)
(* ===================================================================== *)

Section UploadFacts.

Variables (e : env) (rq : upload) (s : state).

Lemma early_none_intro (r0 : completed) (af : file_storage) :
  probe e = inr r0 -> returncode r0 = 0 ->
  audio rq = Some af -> filename af <> "" ->
  supported (requested_format rq) = true ->
  early_response e rq = None.
Proof.
  intros Hp Hrc Ha Hn Hs. unfold early_response, probe_verdict.
  rewrite Hp, Hrc, Ha, Hs. cbn [Z.eqb negb].
  now rewrite (proj2 (String.eqb_neq _ _) Hn).
Qed.

Lemma probe_verdict_true :
  probe_verdict e = Return true <-> exists r0, probe e = inr r0 /\ returncode r0 = 0.
Proof.
  unfold probe_verdict. split.
  - destruct (probe e) as [ex|r0].
    + destruct (class_of ex); discriminate.
    + intros [= H]. exists r0. split; [reflexivity|]. now apply Z.eqb_eq.
  - intros (r0 & -> & ->). reflexivity.
Qed.

(** The store either has a directory at the temporary path or not. *)
Lemma temp_dir_or_not :
  (exists n, files s !! temp_input e = Some (Os.Dir n)) \/ not_dir (files s) (temp_input e).
Proof.
  destruct (files s !! temp_input e) as [[c|n]|] eqn:E.
  - right. intros n. congruence.
  - left. now exists n.
  - right. intros n. congruence.
Qed.

(** [upload_audio] always answers; it starts no thread; its status is
    400 only on an early answer. *)
Lemma upload_total :
  exists resp s', upload_audio e rq s = (Return resp, s') /\ threads s' = threads s.
Proof.
  destruct (early_response e rq) as [r|] eqn:Hearly.
  - destruct (upload_early e rq s r Hearly) as (s' & H & _ & Ht & _). eauto.
  - destruct temp_dir_or_not as [[n Hd]|Hnd].
    + destruct (upload_save_fails e rq s n Hearly Hd) as (s' & H & _ & Ht & _). eauto.
    + destruct (early_none e rq Hearly) as (_ & af & Ha & _).
      destruct (upload_staged e rq s af Hearly Ha Hnd)
        as (cmd & b & m & resp & s' & _ & H & _ & Ht & _). eauto.
Qed.

Lemma upload_late_status (resp : response) (s' : state) :
  early_response e rq = None ->
  upload_audio e rq s = (Return resp, s') ->
  status resp = 200 \/ status resp = 500.
Proof.
  intros Hearly Hrun. destruct temp_dir_or_not as [[n Hd]|Hnd].
  - destruct (upload_save_fails e rq s n Hearly Hd) as (s1 & H & _).
    rewrite H in Hrun. injection Hrun as <- _. now right.
  - destruct (early_none e rq Hearly) as (_ & af & Ha & _).
    destruct (upload_staged e rq s af Hearly Ha Hnd)
      as (cmd & b & m & resp1 & s1 & _ & H & _ & _ & _ & _ & Hresp & _).
    rewrite H in Hrun. injection Hrun as <- _.
    destruct b.
    + destruct Hresp as (size & _ & ->). now left.
    + rewrite Hresp. now right.
Qed.

End UploadFacts.

(* ===================================================================== *)
(** ** The staged input *)
(* ===================================================================== *)

(** C3. In every upload that reaches the conversion (the probe succeeds,
    the part and its filename are present, the format is supported and the
    upload could be saved), whatever the transcoder does and however
    [convert_audio] answers, [upload_audio] returns a response, and in the
    state it returns with the temporary input is no longer in the store. *)
Theorem staged_input_released
    (e : env) (rq : upload) (s : state) (r0 : completed) (af : file_storage) :
  probe e = inr r0 -> returncode r0 = 0 ->
  audio rq = Some af -> filename af <> "" ->
  supported (requested_format rq) = true ->
  not_dir (files s) (temp_input e) ->
  exists resp s',
    upload_audio e rq s = (Return resp, s') /\
    files s' !! temp_input e = None /\
    Os.exists_ (files s') (temp_input e) = false.
Proof.
  intros Hp Hrc Ha Hn Hs Hnd.
  pose proof (early_none_intro e rq r0 af Hp Hrc Ha Hn Hs) as Hearly.
  destruct (upload_staged e rq s af Hearly Ha Hnd)
    as (cmd & b & m & resp & s' & _ & H & Hfiles & _).
  exists resp, s'. split; [exact H|].
  assert (Hgone : files s' !! temp_input e = None)
    by (rewrite Hfiles; apply lookup_delete_eq).
  split; [exact Hgone|].
  rewrite exists_plain by apply temp_not_sep. now rewrite Hgone.
Qed.

Lemma staged_input_released_witness :
  exists resp s',
    upload_audio (Demo.host Demo.good_ffmpeg) (Demo.blob (Some "mp3") None) Demo.fresh
    = (Return resp, s') /\
    files s' !! temp_input (Demo.host Demo.good_ffmpeg) = None /\
    Os.exists_ (files s') (temp_input (Demo.host Demo.good_ffmpeg)) = false.
Proof.
  apply (staged_input_released (Demo.host Demo.good_ffmpeg) (Demo.blob (Some "mp3") None)
           Demo.fresh Demo.done_ok {| filename := "blob"; stream := "webmbytes" |}).
  - reflexivity.
  - reflexivity.
  - reflexivity.
  - discriminate.
  - reflexivity.
  - intros n. vm_compute. discriminate.
Defined.

(* ===================================================================== *)
(** ** A conversion that times out *)
(* ===================================================================== *)

Module Timeout.

(** A transcoder that has written three bytes of output when the 120
    seconds are over. *)
Definition stalled_ffmpeg (cmd : list string) (σ : Os.store)
  : (exn + completed) * list Os.file_op :=
  (inl (Exn TimeoutExpired "Command 'ffmpeg' timed out after 120 seconds"),
   [Os.Write (List.last cmd "") "ID3"]).

Definition host : env := Demo.host stalled_ffmpeg.
Definition request : upload := Demo.blob (Some "mp3") None.

End Timeout.

(** C7, as stated, fails: after a timed-out conversion the output path
    still holds what the aborted process wrote. *)
Lemma timeout_leaves_partial_output :
  ~ (forall (e : env) (rq : upload) (s : state) (af : file_storage)
            (cmd : list string) (ex : exn) (ops : list Os.file_op)
            (resp : response) (s' : state),
        early_response e rq = None ->
        audio rq = Some af ->
        command e rq = Some cmd ->
        ffmpeg e cmd (staged_store e rq af s) = (inl ex, ops) ->
        class_of ex = TimeoutExpired ->
        upload_audio e rq s = (Return resp, s') ->
        Os.exists_ (files s') (temp_input e) = false /\
        Os.exists_ (files s') (output_path e rq) = false).
Proof.
  intros H.
  destruct (upload_total Timeout.host Timeout.request Demo.fresh) as (resp & s' & E & _).
  assert (Hearly : early_response Timeout.host Timeout.request = None)
    by (vm_compute; reflexivity).
  assert (Hcmd : command Timeout.host Timeout.request = Some (Conversion.mp3_cmd "192"))
    by (vm_compute; reflexivity).
  specialize (H Timeout.host Timeout.request Demo.fresh
                {| filename := "blob"; stream := "webmbytes" |}
                (Conversion.mp3_cmd "192") _ _ resp s'
                Hearly eq_refl Hcmd eq_refl eq_refl E).
  destruct H as [_ H].
  assert (Hs : s' = snd (upload_audio Timeout.host Timeout.request Demo.fresh))
    by (rewrite E; reflexivity).
  rewrite Hs in H. vm_compute in H. discriminate.
Qed.

(** C7, amended. When the transcoder run of a staged upload ends in
    [TimeoutExpired], the process was started with [timeout=120], the
    response is the 500 error "Conversion failed: Conversion timeout", the
    temporary input is gone from the store, and the output path holds
    exactly what the aborted process left there: nothing removes it. *)
Theorem timeout_response_and_store
    (e : env) (rq : upload) (s : state) (af : file_storage)
    (cmd : list string) (ex : exn) (ops : list Os.file_op) :
  early_response e rq = None ->
  audio rq = Some af ->
  not_dir (files s) (temp_input e) ->
  command e rq = Some cmd ->
  ffmpeg e cmd (staged_store e rq af s) = (inl ex, ops) ->
  class_of ex = TimeoutExpired ->
  exists s',
    upload_audio e rq s
    = (Return (json_error "Conversion failed: Conversion timeout" 500), s') /\
    spawned s' = (cmd, Some 120) :: probe_call :: spawned s /\
    Os.exists_ (files s') (temp_input e) = false /\
    files s' !! output_path e rq
    = Os.apply_ops (staged_store e rq af s) ops !! output_path e rq.
Proof.
  intros Hearly Ha Hnd Hcmd Hrun Hclass.
  destruct (upload_staged e rq s af Hearly Ha Hnd)
    as (cmd' & b & m & resp & s' & Hcmd' & H & Hfiles & _ & Hsp & Hv & Hresp & _).
  assert (cmd' = cmd) by congruence. subst cmd'.
  rewrite Hrun in Hv, Hfiles. cbn [fst snd] in Hv, Hfiles.
  unfold verdict in Hv. rewrite Hclass in Hv. injection Hv as -> ->.
  cbv beta iota in Hresp. subst resp.
  exists s'. split; [exact H|]. split; [exact Hsp|]. split.
  - rewrite exists_plain by apply temp_not_sep. rewrite Hfiles.
    now rewrite lookup_delete_eq.
  - rewrite Hfiles. apply lookup_delete_ne, temp_recording_differ.
Qed.

Lemma timeout_response_and_store_witness :
  exists s',
    upload_audio Timeout.host Timeout.request Demo.fresh
    = (Return (json_error "Conversion failed: Conversion timeout" 500), s') /\
    spawned s' = (Conversion.mp3_cmd "192", Some 120) :: probe_call :: spawned Demo.fresh /\
    Os.exists_ (files s') (temp_input Timeout.host) = false /\
    files s' !! output_path Timeout.host Timeout.request
    = Os.apply_ops
        (staged_store Timeout.host Timeout.request
           {| filename := "blob"; stream := "webmbytes" |} Demo.fresh)
        [Os.Write Demo.mp3_path "ID3"] !! output_path Timeout.host Timeout.request.
Proof.
  apply (timeout_response_and_store
           Timeout.host Timeout.request Demo.fresh
           {| filename := "blob"; stream := "webmbytes" |}
           (Conversion.mp3_cmd "192")
           (Exn TimeoutExpired "Command 'ffmpeg' timed out after 120 seconds")
           [Os.Write Demo.mp3_path "ID3"]).
  - vm_compute; reflexivity.
  - reflexivity.
  - intros n. vm_compute. discriminate.
  - vm_compute; reflexivity.
  - vm_compute; reflexivity.
  - reflexivity.
Defined.

Example timeout_partial_output_stays :
  files (snd (upload_audio Timeout.host Timeout.request Demo.fresh)) !! Demo.mp3_path
  = Some (Os.File "ID3").
Proof. vm_compute. reflexivity. Qed.

(* ===================================================================== *)
(** ** The 400 responses *)
(* ===================================================================== *)

Module Absent.

(** A host without the transcoder, and a request without the audio part. *)
Definition host : env :=
  {| probe := inl (Exn FileNotFoundError "[Errno 2] No such file or directory: 'ffmpeg'");
     uuid4 := "3f2a9c1e-1111-4222-8333-444455556666";
     now := "20240102_030405";
     ffmpeg := Demo.good_ffmpeg |}.

Definition request : upload :=
  {| audio := None; form_format := None; form_quality := None |}.

End Absent.

Section EarlyAnswers.

Variables (e : env) (rq : upload).

(** The early answers, one by one. *)
Lemma early_some_cases (r : response) :
  early_response e rq = Some r ->
  (probe_verdict e <> Return true /\ status r = 500)
  \/ (probe_verdict e = Return true /\
      ((audio rq = None /\ r = json_error "No audio file provided" 400)
       \/ (exists af, audio rq = Some af /\ filename af = "" /\
                      r = json_error "No file selected" 400)
       \/ (exists af, audio rq = Some af /\ filename af <> "" /\
                      supported (requested_format rq) = false /\
                      r = json_error "Invalid format. Use mp3 or wav" 400))).
Proof.
  unfold early_response. destruct (probe_verdict e) as [[|]|ex].
  - destruct (audio rq) as [af|].
    + destruct (String.eqb_spec (filename af) "") as [Hn|Hn].
      * intros [= <-]. right. split; [reflexivity|]. right. left. now exists af.
      * destruct (supported (requested_format rq)) eqn:Hs; [discriminate|].
        intros [= <-]. right. split; [reflexivity|]. right. right. now exists af.
    + intros [= <-]. right. split; [reflexivity|]. now left.
  - intros [= <-]. left. split; [discriminate|reflexivity].
  - intros [= <-]. left. split; [discriminate|reflexivity].
Qed.

End EarlyAnswers.

(** C8, as stated, fails: the probe is checked before the request, so a
    request without the audio part is answered 500 when the transcoder is
    absent. *)
Lemma probe_gate_precedes_validation :
  ~ (forall (e : env) (rq : upload) (s : state) (resp : response) (s' : state),
        upload_audio e rq s = (Return resp, s') ->
        (status resp = 400 <->
         (audio rq = None
          \/ (exists af, audio rq = Some af /\ filename af = "")
          \/ supported (requested_format rq) = false))).
Proof.
  intros H.
  destruct (upload_total Absent.host Absent.request Demo.fresh) as (resp & s' & E & _).
  destruct (H _ _ _ _ _ E) as [_ Hback].
  assert (H400 : status resp = 400) by (apply Hback; left; reflexivity).
  assert (Hr : Return resp = fst (upload_audio Absent.host Absent.request Demo.fresh))
    by (rewrite E; reflexivity).
  vm_compute in Hr. injection Hr as ->. discriminate.
Qed.

(** [app.config['MAX_CONTENT_LENGTH']], line 13. *)
Definition MAX_CONTENT_LENGTH : Z := 50 * 1024 * 1024.

(** A POST to [/upload_audio] as it arrives: the length of its body, and
    the parts and fields that parsing the body gives. *)
Record post := {
  content_length : Z;
  parsed : upload }.

(** werkzeug's [RequestEntityTooLarge], an [HTTPException] and so an
    [Exception], with its [str]. *)
Definition too_large : exn :=
  Exn OtherException
    "413 Request Entity Too Large: The data value transmitted exceeds the capacity limit.".

(** [upload_audio] on such a request.  The body is parsed at the first
    access to [request.files], line 102: for a body longer than
    [MAX_CONTENT_LENGTH] that access raises, inside the [try] and after the
    probe, so that only lines 96-100 run before the handler of line 168.
    For any other body the request is handled as [upload_audio] handles
    its parsed form. *)
Definition upload_audio_post (e : env) (rq : post) : M response :=
  if MAX_CONTENT_LENGTH <? content_length rq then
    try_except
      (print "=== Audio Upload Request ===";;
       available ← check_ffmpeg e;
       if negb available then
         mret (json_error "FFmpeg is not installed on the server. Please install FFmpeg." 500)
       else raise too_large)
      (fun ex =>
         print ("Upload error: " +:+ str_of ex);;
         emit (PrintTraceback ex);;
         mret (json_error ("Server error: " +:+ str_of ex) 500))
  else upload_audio e (parsed rq).

(** A request within the limit, and one of sixty megabytes. *)
Definition within_limit (rq : upload) : post :=
  {| content_length := 2 * 1024 * 1024; parsed := rq |}.
Definition oversized (rq : upload) : post :=
  {| content_length := 60 * 1024 * 1024; parsed := rq |}.

Example oversized_upload_is_500 :
  fst (upload_audio_post (Demo.host Demo.good_ffmpeg)
         (oversized (Demo.blob (Some "ogg") None)) Demo.fresh)
  = Return (json_error
              ("Server error: " +:+
               "413 Request Entity Too Large: The data value transmitted exceeds the capacity limit.")
              500).
Proof. vm_compute. reflexivity. Qed.

(** The 400 answers to a parsed request. *)
Lemma upload_400_parsed
    (e : env) (rq : upload) (s : state) (resp : response) (s' : state) :
  upload_audio e rq s = (Return resp, s') ->
  ((exists r0, probe e = inr r0 /\ returncode r0 = 0) ->
   (status resp = 400 <->
    (audio rq = None
     \/ (exists af, audio rq = Some af /\ filename af = "")
     \/ supported (requested_format rq) = false)))
  /\ (~ (exists r0, probe e = inr r0 /\ returncode r0 = 0) -> status resp = 500)
  /\ (status resp = 400 ->
      (exists error, payload resp = JsonError error) /\ files s' = files s)
  /\ (forall af,
        (exists r0, probe e = inr r0 /\ returncode r0 = 0) ->
        audio rq = Some af -> filename af <> "" ->
        supported (requested_format rq) = false ->
        resp = json_error "Invalid format. Use mp3 or wav" 400 /\ files s' = files s).
Proof.
  intros Hrun. destruct (early_response e rq) as [r|] eqn:Hearly.
  - destruct (upload_early e rq s r Hearly) as (s1 & H1 & Hfiles & _).
    rewrite H1 in Hrun. injection Hrun as Hr Hs1. subst resp s'.
    destruct (early_some_cases e rq r Hearly)
      as [[Hp Hst] | [Hp [[Ha ->] | [(af & Ha & Hn & ->) | (af & Ha & Hn & Hs & ->)]]]];
      (split; [|split; [|split]]).
    + intros Hok. exfalso. now apply Hp, probe_verdict_true.
    + intros _. exact Hst.
    + intros H. rewrite Hst in H. discriminate.
    + intros af Hok. exfalso. now apply Hp, probe_verdict_true.
    + intros _. split; [now left | reflexivity].
    + intros Hno. exfalso. now apply Hno, probe_verdict_true.
    + intros _. split; [now eexists | exact Hfiles].
    + intros af _ Ha'. congruence.
    + intros _. split; [intros _; right; left; now exists af | reflexivity].
    + intros Hno. exfalso. now apply Hno, probe_verdict_true.
    + intros _. split; [now eexists | exact Hfiles].
    + intros af' _ Ha' Hn'. assert (af' = af) by congruence. subst af'.
      now destruct Hn'.
    + intros _. split; [intros _; now right; right | reflexivity].
    + intros Hno. exfalso. now apply Hno, probe_verdict_true.
    + intros _. split; [now eexists | exact Hfiles].
    + intros af' _ _ _ _. split; [reflexivity | exact Hfiles].
  - destruct (early_none e rq Hearly) as (Hp & af & Ha & Hn & Hs).
    apply String.eqb_neq in Hn.
    pose proof (upload_late_status e rq s resp s' Hearly Hrun) as Hst.
    assert (Hnot : status resp <> 400) by (destruct Hst as [-> | ->]; discriminate).
    split; [|split; [|split]].
    + intros _. split.
      * intros H. now destruct Hnot.
      * intros [Hx | [(af' & Ha' & Hn') | Hx]]; exfalso; congruence.
    + intros Hno. exfalso. now apply Hno, probe_verdict_true.
    + intros H. now destruct Hnot.
    + intros af' _ _ _ Hs'. congruence.
Qed.

(** C8, amended. For a request whose body is not longer than
    [MAX_CONTENT_LENGTH]: when the probe completes with return code zero,
    the answer is 400 exactly when the audio part is missing, its filename
    is empty, or the lower-cased format is neither mp3 nor wav; when the
    probe does not, the answer is 500 whatever the request.  A 400 answer
    carries a JSON error body and leaves the store untouched, and with the
    part and its filename present an unsupported format is answered
    [{error: "Invalid format. Use mp3 or wav"}]. *)
Theorem upload_400_iff
    (e : env) (rq : post) (s : state) (resp : response) (s' : state) :
  content_length rq <= MAX_CONTENT_LENGTH ->
  upload_audio_post e rq s = (Return resp, s') ->
  ((exists r0, probe e = inr r0 /\ returncode r0 = 0) ->
   (status resp = 400 <->
    (audio (parsed rq) = None
     \/ (exists af, audio (parsed rq) = Some af /\ filename af = "")
     \/ supported (requested_format (parsed rq)) = false)))
  /\ (~ (exists r0, probe e = inr r0 /\ returncode r0 = 0) -> status resp = 500)
  /\ (status resp = 400 ->
      (exists error, payload resp = JsonError error) /\ files s' = files s)
  /\ (forall af,
        (exists r0, probe e = inr r0 /\ returncode r0 = 0) ->
        audio (parsed rq) = Some af -> filename af <> "" ->
        supported (requested_format (parsed rq)) = false ->
        resp = json_error "Invalid format. Use mp3 or wav" 400 /\ files s' = files s).
Proof.
  intros Hlen Hrun. unfold upload_audio_post in Hrun.
  destruct (Z.ltb_spec MAX_CONTENT_LENGTH (content_length rq)) as [Hbig|_]; [lia|].
  exact (upload_400_parsed e (parsed rq) s resp s' Hrun).
Qed.

Lemma upload_400_iff_witness :
  fst (upload_audio_post (Demo.host Demo.good_ffmpeg)
         (within_limit (Demo.blob (Some "ogg") None)) Demo.fresh)
  = Return (json_error "Invalid format. Use mp3 or wav" 400) /\
  files (snd (upload_audio_post (Demo.host Demo.good_ffmpeg)
                (within_limit (Demo.blob (Some "ogg") None)) Demo.fresh))
  = files Demo.fresh.
Proof.
  destruct (upload_total (Demo.host Demo.good_ffmpeg) (Demo.blob (Some "ogg") None) Demo.fresh)
    as (resp & s' & E & _).
  assert (E' : upload_audio_post (Demo.host Demo.good_ffmpeg)
                 (within_limit (Demo.blob (Some "ogg") None)) Demo.fresh
               = (Return resp, s')) by exact E.
  rewrite E'. cbn [fst snd].
  destruct (upload_400_iff (Demo.host Demo.good_ffmpeg)
              (within_limit (Demo.blob (Some "ogg") None)) Demo.fresh resp s')
    as (_ & _ & _ & H).
  - vm_compute. discriminate.
  - exact E'.
  - destruct (H {| filename := "blob"; stream := "webmbytes" |}) as [-> ->].
    + exists Demo.done_ok. split; reflexivity.
    + reflexivity.
    + discriminate.
    + vm_compute. reflexivity.
    + split; reflexivity.
Defined.

(* ===================================================================== *)
(** ** The quality field *)
(* ===================================================================== *)

Module Quality.

(** A request for mp3 whose quality is not a number. *)
Definition request : upload := Demo.blob (Some "mp3") (Some "loud; rm -rf").

End Quality.

(** The answers to an mp3 upload, whatever its quality. *)
Lemma mp3_quality_answers
    (e : env) (rq : upload) (s : state) (af : file_storage)
    (resp : response) (s' : state) :
  audio rq = Some af -> filename af <> "" ->
  requested_format rq = "mp3" ->
  upload_audio e rq s = (Return resp, s') ->
  (status resp = 200 \/ status resp = 500)
  /\ (forall cmd rest,
        spawned s' = (cmd, Some 120) :: rest ->
        cmd = ["ffmpeg"; "-i"; temp_input e;
               "-codec:a"; "libmp3lame";
               "-b:a"; requested_quality rq +:+ "k";
               "-ar"; "44100"; "-ac"; "2"; "-y";
               output_path e rq])
  /\ (forall data,
        payload resp = Json data ->
        r_quality data = requested_quality rq +:+ " kbps").
Proof.
  intros Ha Hn Hfmt Hrun.
  destruct (early_response e rq) as [r|] eqn:Hearly.
  - destruct (upload_early e rq s r Hearly) as (s1 & H1 & _ & _ & Hsp).
    rewrite H1 in Hrun. injection Hrun as Hr Hs1. subst resp s'.
    destruct (early_some_cases e rq r Hearly)
      as [[Hp Hst] | [Hp [[Ha' _] | [(af' & Ha' & Hn' & _) | (af' & _ & _ & Hs & _)]]]].
    + split; [now right|]. split.
      * intros cmd rest H. rewrite Hsp in H. discriminate.
      * intros data Hd. unfold early_response in Hearly.
        destruct (probe_verdict e) as [[|]|ex]; try (now destruct Hp);
          injection Hearly as <-; discriminate.
    + congruence.
    + assert (af' = af) by congruence. subst af'. now destruct Hn.
    + rewrite Hfmt in Hs. discriminate.
  - split; [exact (upload_late_status e rq s resp s' Hearly Hrun)|].
    destruct (temp_dir_or_not e s) as [[n Hd]|Hnd].
    + destruct (upload_save_fails e rq s n Hearly Hd) as (s1 & H1 & _ & _ & Hsp).
      rewrite H1 in Hrun. injection Hrun as Hr Hs1. subst resp s'. split.
      * intros cmd rest H. rewrite Hsp in H. discriminate.
      * intros data Hdata. discriminate.
    + destruct (upload_staged e rq s af Hearly Ha Hnd)
        as (cmd & b & m & resp1 & s1 & Hcmd & H1 & _ & _ & Hsp & _ & Hresp & _).
      rewrite H1 in Hrun. injection Hrun as Hr Hs1. subst resp1 s1. split.
      * intros cmd' rest H. rewrite Hsp in H. injection H as <- _.
        unfold command, build_cmd in Hcmd. rewrite Hfmt in Hcmd.
        change (String.eqb (Py.lower "mp3") "mp3") with true in Hcmd.
        now injection Hcmd as <-.
      * intros data Hdata. destruct b.
        -- destruct Hresp as (size & _ & ->). injection Hdata as <-.
           unfold success_data. cbn [r_quality]. now rewrite Hfmt.
        -- rewrite Hresp in Hdata. discriminate.
Qed.

(** The command line [convert_audio] builds for mp3. *)
Definition mp3_command (e : env) (rq : upload) : list string :=
  ["ffmpeg"; "-i"; temp_input e;
   "-codec:a"; "libmp3lame";
   "-b:a"; requested_quality rq +:+ "k";
   "-ar"; "44100"; "-ac"; "2"; "-y";
   output_path e rq].

(** C10. For an upload with the audio part, a filename and the format mp3,
    whatever string the quality field holds.  The answer is 200 or 500,
    never 400, and a JSON success body reports that string followed by
    [" kbps"].  When the probe succeeds and the upload can be saved, the
    transcoder is started, once and with [timeout=120], on the command line
    whose [-b:a] argument is that string followed by [k]; and when that run
    completes with return code zero and leaves the output, the answer is
    the 200 response whose quality is that string followed by [" kbps"]. *)
Theorem quality_not_validated
    (e : env) (rq : upload) (s : state) (af : file_storage) :
  audio rq = Some af -> filename af <> "" ->
  requested_format rq = "mp3" ->
  exists resp s',
    upload_audio e rq s = (Return resp, s')
    /\ (status resp = 200 \/ status resp = 500)
    /\ (forall data,
          payload resp = Json data ->
          r_quality data = requested_quality rq +:+ " kbps")
    /\ ((exists r0, probe e = inr r0 /\ returncode r0 = 0) ->
        not_dir (files s) (temp_input e) ->
        spawned s' = (mp3_command e rq, Some 120) :: probe_call :: spawned s
        /\ (forall r,
              fst (ffmpeg e (mp3_command e rq) (staged_store e rq af s)) = inr r ->
              returncode r = 0 ->
              Os.exists_
                (Os.apply_ops (staged_store e rq af s)
                   (snd (ffmpeg e (mp3_command e rq) (staged_store e rq af s))))
                (output_path e rq) = true ->
              exists data,
                resp = {| status := 200; payload := Json data |}
                /\ r_quality data = requested_quality rq +:+ " kbps")).
Proof.
  intros Ha Hn Hfmt.
  destruct (upload_total e rq s) as (resp & s' & Hrun & _).
  exists resp, s'. split; [exact Hrun|].
  destruct (mp3_quality_answers e rq s af resp s' Ha Hn Hfmt Hrun) as (Hst & _ & Hecho).
  split; [exact Hst|]. split; [exact Hecho|].
  intros (r0 & Hp & Hrc) Hnd.
  assert (Hs : supported (requested_format rq) = true) by now rewrite Hfmt.
  pose proof (early_none_intro e rq r0 af Hp Hrc Ha Hn Hs) as Hearly.
  destruct (upload_staged e rq s af Hearly Ha Hnd)
    as (cmd & b & m & resp1 & s1 & Hcmd & H1 & Hfiles & _ & Hsp & Hv & Hresp & _).
  rewrite H1 in Hrun. injection Hrun as Hr Hs1. subst resp1 s1.
  assert (Hc : cmd = mp3_command e rq).
  { unfold command, build_cmd in Hcmd. rewrite Hfmt in Hcmd.
    change (String.eqb (Py.lower "mp3") "mp3") with true in Hcmd.
    now injection Hcmd as <-. }
  subst cmd. split; [exact Hsp|].
  intros r Hrun Hzero Hout.
  assert (Hex : Os.exists_ (files s') (output_path e rq) = true).
  { rewrite Hfiles. unfold Os.exists_. rewrite stat_delete_ne.
    - exact Hout.
    - now apply output_not_sep.
    - apply temp_recording_differ. }
  rewrite Hrun, Hex in Hv. unfold verdict in Hv.
  rewrite (proj2 (Z.eqb_eq _ _) Hzero) in Hv. injection Hv as -> _.
  destruct Hresp as (size & _ & ->). eexists. split; [reflexivity|].
  unfold success_data. cbn [r_quality]. now rewrite Hfmt.
Qed.

Lemma quality_not_validated_witness :
  exists resp s',
    upload_audio (Demo.host Demo.good_ffmpeg) Quality.request Demo.fresh = (Return resp, s')
    /\ spawned s' = (Conversion.mp3_cmd "loud; rm -rf", Some 120)
                    :: probe_call :: spawned Demo.fresh
    /\ exists data,
         resp = {| status := 200; payload := Json data |}
         /\ r_quality data = "loud; rm -rf kbps".
Proof.
  destruct (quality_not_validated (Demo.host Demo.good_ffmpeg) Quality.request Demo.fresh
              {| filename := "blob"; stream := "webmbytes" |})
    as (resp & s' & E & _ & _ & H).
  - reflexivity.
  - discriminate.
  - vm_compute. reflexivity.
  - destruct H as [Hsp Hok].
    + exists Demo.done_ok. split; reflexivity.
    + intros n. vm_compute. discriminate.
    + exists resp, s'. split; [exact E|]. split; [exact Hsp|].
      apply (Hok Demo.done_ok).
      * vm_compute. reflexivity.
      * reflexivity.
      * vm_compute. reflexivity.
Defined.

Example quality_reaches_the_command_line :
  hd_error (spawned (snd (upload_audio (Demo.host Demo.good_ffmpeg) Quality.request
                            Demo.fresh)))
  = Some (Conversion.mp3_cmd "loud; rm -rf", Some 120).
Proof. vm_compute. reflexivity. Qed.

(* ===================================================================== *)
(** ** What a failed conversion tells the caller *)
(* ===================================================================== *)

Module Failure.

Definition diagnostic : string :=
  "static/temp/temp_3f2a9c1e.webm: Invalid data found when processing input".

(** A transcoder that rejects its input and says so on [stderr]. *)
Definition failing_ffmpeg (cmd : list string) (σ : Os.store)
  : (exn + completed) * list Os.file_op :=
  (inr {| returncode := 1; stdout := ""; stderr := diagnostic |}, []).

Definition host : env := Demo.host failing_ffmpeg.
Definition request : upload := Demo.blob (Some "mp3") None.

End Failure.

(** C5, as stated, fails: the error message of a failed conversion
    contains the diagnostic stream of the process. *)
Lemma failure_message_exposes_stderr :
  ~ (forall (e : env) (rq : upload) (s : state) (af : file_storage)
            (cmd : list string) (r : completed) (ops : list Os.file_op)
            (error : string) (code : Z) (s' : state),
        early_response e rq = None ->
        audio rq = Some af ->
        command e rq = Some cmd ->
        ffmpeg e cmd (staged_store e rq af s) = (inr r, ops) ->
        nonempty (stderr r) = true ->
        upload_audio e rq s = (Return (json_error error code), s') ->
        Py.contains error (stderr r) = false).
Proof.
  intros H.
  destruct (upload_total Failure.host Failure.request Demo.fresh) as (resp & s' & E & _).
  assert (Hr : Return resp = fst (upload_audio Failure.host Failure.request Demo.fresh))
    by (rewrite E; reflexivity).
  vm_compute in Hr. injection Hr as ->.
  assert (Hearly : early_response Failure.host Failure.request = None)
    by (vm_compute; reflexivity).
  assert (Hcmd : command Failure.host Failure.request = Some (Conversion.mp3_cmd "192"))
    by (vm_compute; reflexivity).
  specialize (H Failure.host Failure.request Demo.fresh
                {| filename := "blob"; stream := "webmbytes" |}
                (Conversion.mp3_cmd "192") _ _ _ _ s'
                Hearly eq_refl Hcmd eq_refl eq_refl E).
  vm_compute in H. discriminate.
Qed.

(** C5, amended. When the transcoder run of a staged upload completes
    with a non-zero return code, or with the output path missing, the
    caller receives the 500 error whose message is "Conversion failed:
    FFmpeg error: " followed by the whole [stderr] of the process; the same
    text, when not empty, is also printed on the server's console. *)
Theorem process_error_message
    (e : env) (rq : upload) (s : state) (af : file_storage)
    (cmd : list string) (r : completed) (ops : list Os.file_op) :
  early_response e rq = None ->
  audio rq = Some af ->
  not_dir (files s) (temp_input e) ->
  command e rq = Some cmd ->
  ffmpeg e cmd (staged_store e rq af s) = (inr r, ops) ->
  (returncode r <> 0 \/
   Os.exists_ (Os.apply_ops (staged_store e rq af s) ops) (output_path e rq) = false) ->
  exists s',
    upload_audio e rq s
    = (Return (json_error ("Conversion failed: " +:+ "FFmpeg error: " +:+ stderr r) 500), s')
    /\ (nonempty (stderr r) = true ->
        In (Print ("FFmpeg stderr: " +:+ stderr r)) (console s')).
Proof.
  intros Hearly Ha Hnd Hcmd Hrun Hfail.
  destruct (early_none e rq Hearly) as (_ & _ & _ & _ & Hs).
  destruct (upload_staged e rq s af Hearly Ha Hnd)
    as (cmd' & b & m & resp & s' & Hcmd' & H & Hfiles & _ & _ & Hv & Hresp & Hlog).
  assert (cmd' = cmd) by congruence. subst cmd'.
  rewrite Hrun in Hv, Hfiles, Hlog. cbn [fst snd] in Hv, Hfiles, Hlog.
  assert (Hex : Os.exists_ (files s') (output_path e rq)
                = Os.exists_ (Os.apply_ops (staged_store e rq af s) ops) (output_path e rq)).
  { rewrite Hfiles. unfold Os.exists_. rewrite stat_delete_ne; [reflexivity| |].
    - now apply output_not_sep.
    - apply temp_recording_differ. }
  assert (Hfalse : ((returncode r =? 0) && Os.exists_ (files s') (output_path e rq))%bool
                   = false).
  { destruct Hfail as [Hrc|Hout].
    - apply Z.eqb_neq in Hrc. now rewrite Hrc.
    - rewrite Hex, Hout. apply andb_false_r. }
  unfold verdict in Hv. rewrite Hfalse in Hv. injection Hv as -> ->.
  cbv beta iota in Hresp. subst resp.
  exists s'. split; [exact H|]. intros Hne. now apply Hlog.
Qed.

Lemma process_error_message_witness :
  exists s',
    upload_audio Failure.host Failure.request Demo.fresh
    = (Return (json_error ("Conversion failed: " +:+ "FFmpeg error: " +:+ Failure.diagnostic)
                 500), s')
    /\ (nonempty Failure.diagnostic = true ->
        In (Print ("FFmpeg stderr: " +:+ Failure.diagnostic)) (console s')).
Proof.
  apply (process_error_message Failure.host Failure.request Demo.fresh
           {| filename := "blob"; stream := "webmbytes" |}
           (Conversion.mp3_cmd "192")
           {| returncode := 1; stdout := ""; stderr := Failure.diagnostic |} []).
  - vm_compute; reflexivity.
  - reflexivity.
  - intros n. vm_compute. discriminate.
  - vm_compute; reflexivity.
  - reflexivity.
  - left. discriminate.
Defined.

(* ===================================================================== *)
(** ** Downloads and the deletion threads *)
(* ===================================================================== *)

Section DownloadSteps.

Variable fold : string -> string.

(** The path [download_file] looks at. *)
Definition served_path (filename : string) : string :=
  Os.path_join UPLOAD_FOLDER (Werkzeug.secure_filename fold filename).

Definition deletion (filename : string) : thread :=
  {| sleep_seconds := 300;
     closure_file_path := served_path filename;
     closure_filename := filename |}.

(** [download_file] always answers and never changes the store; it starts
    a thread exactly when the path exists. *)
Lemma download_file_run (filename : string) (s : state) :
  exists resp s',
    download_file fold filename s = (Return resp, s') /\
    files s' = files s /\ spawned s' = spawned s /\
    match Os.stat (files s) (served_path filename) with
    | inl _ =>
        resp = json_error "File not found" 404 /\ threads s' = threads s
    | inr (Os.File c) =>
        resp = {| status := 200;
                  payload := Attachment (served_path filename) c filename
                               "application/octet-stream" |} /\
        threads s' = deletion filename :: threads s
    | inr (Os.Dir _) =>
        resp = json_error ("Download error: " +:+ str_of (Os.eisdir (served_path filename))) 500 /\
        threads s' = deletion filename :: threads s
    end.
Proof.
  unfold download_file, send_file. unfold_M. proj.
  fold (served_path filename). unfold Os.exists_.
  destruct (Os.stat (files s) (served_path filename)) as [ex|[c|n]] eqn:Hstat; proj.
  - do 2 eexists. split; [reflexivity|]. now repeat split.
  - rewrite Hstat. do 2 eexists. split; [reflexivity|]. now repeat split.
  - rewrite Hstat. do 2 eexists. split; [reflexivity|]. now repeat split.
Qed.

End DownloadSteps.

Section Deletion.

Lemma stat_file (σ : Os.store) (p c : string) :
  Os.stat σ p = inr (Os.File c) ->
  Os.ends_with_sep p = false /\ σ !! p = Some (Os.File c).
Proof.
  unfold Os.stat. destruct (Os.ends_with_sep p).
  - destruct (σ !! Os.strip_sep p) as [[c'|n]|]; discriminate.
  - destruct (σ !! p) as [n|] eqn:E; [|discriminate]. intros [= ->]. now split.
Qed.

(** [os.remove] succeeds on regular files only, and on the same path it
    does not succeed twice in a row. *)
Lemma remove_inr (σ σ' : Os.store) (p : string) :
  Os.remove σ p = inr σ' ->
  σ' = delete p σ /\ exists c, Os.stat σ p = inr (Os.File c).
Proof.
  unfold Os.remove. destruct (Os.stat σ p) as [ex|[c|n]] eqn:E; try discriminate.
  intros [= <-]. split; [reflexivity|]. now exists c.
Qed.

Lemma remove_twice (σ σ' : Os.store) (p : string) :
  Os.remove σ p = inr σ' -> Os.remove σ' p = inl (Os.enoent p).
Proof.
  intros H. destruct (remove_inr _ _ _ H) as (-> & c & Hstat).
  destruct (stat_file _ _ _ Hstat) as [Hsep _].
  unfold Os.remove. rewrite stat_plain by exact Hsep. now rewrite lookup_delete_eq.
Qed.

Lemma exists_after_remove (σ σ' : Os.store) (p : string) :
  Os.remove σ p = inr σ' -> Os.exists_ σ' p = false.
Proof.
  intros H. destruct (remove_inr _ _ _ H) as (-> & c & Hstat).
  destruct (stat_file _ _ _ Hstat) as [Hsep _].
  rewrite exists_plain by exact Hsep. now rewrite lookup_delete_eq.
Qed.

(** The thread body once awake. *)
Lemma delete_after_delay_run (t : thread) (s : state) :
  delete_after_delay t s =
  if Os.exists_ (files s) (closure_file_path t) then
    match Os.remove (files s) (closure_file_path t) with
    | inr σ =>
        (Return tt, add_console (Print ("Deleted file after download: " +:+ closure_filename t))
                      (set_files σ s))
    | inl ex =>
        (Return tt, add_console (Print ("Error deleting file: " +:+ str_of ex)) s)
    end
  else (Return tt, s).
Proof.
  unfold delete_after_delay. unfold_M. proj.
  destruct (Os.exists_ (files s) (closure_file_path t)); [|reflexivity].
  unfold_M. destruct (Os.remove (files s) (closure_file_path t)); reflexivity.
Qed.

End Deletion.

(* ===================================================================== *)
(** ** When the deletion is armed *)
(* ===================================================================== *)

Module Served.

(** The server after the upload of [upload_mp3_128]. *)
Definition after_upload : state :=
  snd (upload_audio (Demo.host Demo.good_ffmpeg) (Demo.blob (Some "MP3") (Some "128"))
         Demo.fresh).

End Served.

(** C1, as stated, fails: a successful upload returns with no deletion
    thread for its artifact. *)
Lemma upload_arms_no_deletion :
  ~ (forall (e : env) (rq : upload) (s : state) (data : response_data) (s' : state),
        upload_audio e rq s = (Return {| status := 200; payload := Json data |}, s') ->
        exists t, In t (threads s') /\
                  closure_file_path t = output_path e rq /\ sleep_seconds t = 300).
Proof.
  intros H.
  destruct (upload_total (Demo.host Demo.good_ffmpeg) (Demo.blob (Some "MP3") (Some "128"))
              Demo.fresh) as (resp & s' & E & Ht).
  assert (Hr : Return resp
               = fst (upload_audio (Demo.host Demo.good_ffmpeg)
                        (Demo.blob (Some "MP3") (Some "128")) Demo.fresh))
    by (rewrite E; reflexivity).
  vm_compute in Hr. injection Hr as ->.
  destruct (H _ _ _ _ _ E) as (t & Hin & _).
  rewrite Ht in Hin. exact Hin.
Qed.

(** C1, amended. [upload_audio] starts no thread.  [download_file] answers
    without touching the store; when the path it looks at exists it has
    started, and not joined, one thread that sleeps 300 seconds on that
    path, and when the path does not exist it has started none.  The body
    of such a thread, once awake, removes the path when it names a regular
    file and changes nothing when the path is absent. *)
Theorem deletion_armed_by_download (fold : string -> string) :
  (forall (e : env) (rq : upload) (s : state) (resp : response) (s' : state),
      upload_audio e rq s = (Return resp, s') -> threads s' = threads s)
  /\ (forall (filename : string) (s : state),
        exists resp s',
          download_file fold filename s = (Return resp, s') /\
          files s' = files s /\
          threads s' = if Os.exists_ (files s) (served_path fold filename)
                       then deletion fold filename :: threads s
                       else threads s)
  /\ (forall (t : thread) (s : state),
        exists s',
          delete_after_delay t s = (Return tt, s') /\
          threads s' = threads s /\
          (forall c, Os.stat (files s) (closure_file_path t) = inr (Os.File c) ->
                     files s' = delete (closure_file_path t) (files s)) /\
          (Os.exists_ (files s) (closure_file_path t) = false -> files s' = files s)).
Proof.
  split; [|split].
  - intros e rq s resp s' Hrun.
    destruct (upload_total e rq s) as (resp1 & s1 & H1 & Ht).
    rewrite H1 in Hrun. now injection Hrun as _ <-.
  - intros filename s.
    destruct (download_file_run fold filename s) as (resp & s' & H & Hf & _ & Hcase).
    exists resp, s'. split; [exact H|]. split; [exact Hf|].
    unfold Os.exists_.
    destruct (Os.stat (files s) (served_path fold filename)) as [ex|[c|n]];
      now destruct Hcase.
  - intros t s. rewrite delete_after_delay_run.
    destruct (Os.exists_ (files s) (closure_file_path t)) eqn:Hex.
    + destruct (Os.remove (files s) (closure_file_path t)) as [ex|σ] eqn:Hrm;
        eexists; (split; [reflexivity|]); proj; (split; [reflexivity|]); split.
      * intros c Hc. unfold Os.remove in Hrm. rewrite Hc in Hrm. discriminate.
      * discriminate.
      * intros c _. now destruct (remove_inr _ _ _ Hrm).
      * discriminate.
    + eexists. split; [reflexivity|]. split; [reflexivity|]. split; [|reflexivity].
      intros c Hc. unfold Os.exists_ in Hex. rewrite Hc in Hex. discriminate.
Qed.

Lemma deletion_armed_by_download_witness :
  threads Served.after_upload = threads Demo.fresh
  /\ (exists s',
        delete_after_delay (deletion id Demo.mp3_name) Served.after_upload = (Return tt, s') /\
        files s' = delete Demo.mp3_path (files Served.after_upload)).
Proof.
  destruct (deletion_armed_by_download id) as (Hup & _ & Hwake). split.
  - destruct (upload_total (Demo.host Demo.good_ffmpeg) (Demo.blob (Some "MP3") (Some "128"))
                Demo.fresh) as (resp & s' & E & _).
    unfold Served.after_upload. rewrite E. exact (Hup _ _ _ _ _ E).
  - destruct (Hwake (deletion id Demo.mp3_name) Served.after_upload)
      as (s' & H & _ & Hfile & _).
    exists s'. split; [exact H|].
    apply (Hfile "ID3data"). vm_compute. reflexivity.
Defined.

Example download_arms_deletion :
  threads (snd (download_file id Demo.mp3_name Served.after_upload))
  = [{| sleep_seconds := 300;
        closure_file_path := Demo.mp3_path;
        closure_filename := Demo.mp3_name |}].
Proof. vm_compute. reflexivity. Qed.

(* ===================================================================== *)
(** ** Deleting twice *)
(* ===================================================================== *)

(** C9. The clean-up of the temporary input, run twice on the same path,
    returns normally both times, and the second run changes neither the
    store nor the threads: all it does is print the error of [os.remove].
    The body of a deletion thread, run twice on the same path, returns
    normally both times, and the second run leaves the store and the
    threads as the first left them. *)
Theorem release_and_expiry_idempotent :
  (forall (p : string) (s : state),
      exists s1 s2 ex,
        release p s = (Return tt, s1) /\
        release p s1 = (Return tt, s2) /\
        files s2 = files s1 /\ threads s2 = threads s1 /\ spawned s2 = spawned s1 /\
        console s2 = Print ("Error cleaning up input file: " +:+ str_of ex) :: console s1)
  /\ (forall (t : thread) (s : state),
        exists s1 s2,
          delete_after_delay t s = (Return tt, s1) /\
          delete_after_delay t s1 = (Return tt, s2) /\
          files s2 = files s1 /\ threads s2 = threads s1 /\ spawned s2 = spawned s1).
Proof.
  split.
  - intros p s. rewrite release_run.
    destruct (Os.remove (files s) p) as [ex|σ] eqn:Hrm.
    + eexists. exists (add_console (Print ("Error cleaning up input file: " +:+ str_of ex))
                       (add_console (Print ("Error cleaning up input file: " +:+ str_of ex)) s)).
      exists ex. split; [reflexivity|]. rewrite release_run. proj. rewrite Hrm.
      now repeat split.
    + eexists. eexists. exists (Os.enoent p). split; [reflexivity|].
      rewrite release_run. proj. rewrite (remove_twice _ _ _ Hrm).
      split; [reflexivity|]. now repeat split.
  - intros t s. rewrite delete_after_delay_run.
    destruct (Os.exists_ (files s) (closure_file_path t)) eqn:Hex.
    + destruct (Os.remove (files s) (closure_file_path t)) as [ex|σ] eqn:Hrm.
      * eexists. eexists. split; [reflexivity|].
        rewrite delete_after_delay_run. proj. rewrite Hex, Hrm.
        split; [reflexivity|]. now repeat split.
      * eexists. eexists. split; [reflexivity|].
        rewrite delete_after_delay_run. proj.
        rewrite (exists_after_remove _ _ _ Hrm).
        split; [reflexivity|]. now repeat split.
    + exists s, s. split; [reflexivity|].
      rewrite delete_after_delay_run, Hex. now repeat split.
Qed.

(* ===================================================================== *)
(** ** What [secure_filename] returns *)
(* ===================================================================== *)

Section SecureFilename.

Implicit Types (set : ascii -> bool) (l : list ascii).






(** Stripping leaves untouched a text that neither starts nor ends with a
    stripped character. *)
Lemma lstrip_id set c l : set c = false -> Py.lstrip set (c :: l) = c :: l.
Proof. intros H. simpl. now rewrite H. Qed.

Lemma rstrip_id set l c : set c = false -> Py.rstrip set (l ++ [c]) = l ++ [c].
Proof.
  intros H. unfold Py.rstrip. rewrite rev_app_distr. simpl. rewrite H.
  change (rev (c :: rev l)) with (rev ([c] ++ rev l)).
  now rewrite rev_app_distr, rev_involutive.
Qed.

Variable fold : string -> string.

Definition allowed_char (c : ascii) : Prop := Werkzeug.allowed c = true.



Lemma allowed_not_sep (c : ascii) : allowed_char c -> c <> "/"%char.
Proof. intros H ->. discriminate H. Qed.







End SecureFilename.

(* ===================================================================== *)
(** ** Downloads stay inside the scratch directory *)
(* ===================================================================== *)


Module Traversal.


(** The same with a backslash (character 92) for separator. *)
Definition dos_identifier : string :=
  ".." +:+ String (ascii_of_nat 92) Demo.mp3_name.


End Traversal.


Section Confinement.

Variable fold : string -> string.


End Confinement.



(** Identifiers that Flask's [<filename>] converter lets through (they
    hold no ["/"]) are sanitised the same way. *)
Example dotted_identifier_served :
  fst (download_file id (".." +:+ Demo.mp3_name) Served.after_upload)
  = Return {| status := 200;
              payload := Attachment Demo.mp3_path "ID3data" (".." +:+ Demo.mp3_name)
                           "application/octet-stream" |}.
Proof. vm_compute. reflexivity. Qed.

Example backslash_identifier_served :
  fst (download_file id (Traversal.dos_identifier) Served.after_upload)
  = Return {| status := 200;
              payload := Attachment Demo.mp3_path "ID3data" Traversal.dos_identifier
                           "application/octet-stream" |}.
Proof. vm_compute. reflexivity. Qed.

Example unknown_name_is_404 :
  fst (download_file id "../../etc/passwd" Served.after_upload)
  = Return (json_error "File not found" 404).
Proof. vm_compute. reflexivity. Qed.

(* ===================================================================== *)
(** ** From the download URL back to the artifact *)
(* ===================================================================== *)

Module Flask.

(** The rule [@app.route('/download/<filename>')]: it matches a path made
    of the prefix and one non-empty segment without separator, and binds
    [filename] to that segment. *)
Definition route_download (url : string) : option string :=
  let l := Py.chars url in
  if Py.startswith (Py.chars "/download/") l then
    let segment := skipn 10 l in
    match segment with
    | [] => None
    | _ => if existsb (Ascii.eqb "/") segment then None else Some (Py.str segment)
    end
  else None.

End Flask.

(** What happens on the server after an upload, as far as the artifact is
    concerned: download requests, and deletion threads that wake up. *)
Inductive event :=
| Download (filename : string)
| Wake (t : thread).

Definition thread_eqb (a b : thread) : bool :=
  ((sleep_seconds a =? sleep_seconds b)
   && String.eqb (closure_file_path a) (closure_file_path b)
   && String.eqb (closure_filename a) (closure_filename b))%bool.

Fixpoint end_thread (t : thread) (l : list thread) : list thread :=
  match l with
  | [] => []
  | x :: l' => if thread_eqb t x then l' else x :: end_thread t l'
  end.

(** A started thread wakes, runs its body and ends. *)
Definition wake (t : thread) (s : state) : state :=
  if existsb (thread_eqb t) (threads s) then
    let s' := snd (delete_after_delay t s) in
    {| files := files s';
       console := console s';
       threads := end_thread t (threads s');
       spawned := spawned s' |}
  else s.

Section Events.

Variable fold : string -> string.

Definition step (s : state) (ev : event) : state :=
  match ev with
  | Download filename => snd (download_file fold filename s)
  | Wake t => wake t s
  end.

Definition run (evs : list event) (s : state) : state := fold_left step evs s.

(** An event that is not the expiry of the artifact stored at [p]. *)
Definition spares (p : string) (ev : event) : Prop :=
  match ev with
  | Download _ => True
  | Wake t => closure_file_path t <> p
  end.

Lemma step_spares (p : string) (ev : event) (s : state) :
  spares p ev -> files (step s ev) !! p = files s !! p.
Proof.
  destruct ev as [filename|t]; simpl; intros Hsp.
  - destruct (download_file_run fold filename s) as (resp & s' & E & Hf & _).
    rewrite E. cbn [snd]. now rewrite Hf.
  - unfold wake. destruct (existsb (thread_eqb t) (threads s)); [|reflexivity].
    cbn [files]. rewrite delete_after_delay_run.
    destruct (Os.exists_ (files s) (closure_file_path t)); [|reflexivity].
    destruct (Os.remove (files s) (closure_file_path t)) as [ex|σ] eqn:Hrm; [reflexivity|].
    cbn [snd files set_files add_console].
    destruct (remove_inr _ _ _ Hrm) as [-> _]. now apply lookup_delete_ne.
Qed.

Lemma run_spares (p : string) (evs : list event) (s : state) :
  Forall (spares p) evs -> files (run evs s) !! p = files s !! p.
Proof.
  revert s. induction evs as [|ev evs IH]; intros s H; [reflexivity|].
  inversion H as [|? ? Hev Hevs]; subst. simpl.
  rewrite IH by exact Hevs. now apply step_spares.
Qed.

End Events.

(** The shape of the two strings a request takes from outside: the first
    group of [str(uuid.uuid4())] is eight lower-case hexadecimal digits, and
    [strftime("%Y%m%d_%H%M%S")] prints digits and one underscore. *)
Definition is_hex (c : ascii) : bool :=
  (Py.is_digit c || Py.between "a" "f" c)%bool.

Definition uuid_ok (u : string) : bool :=
  forallb is_hex (firstn 8 (Py.chars u)).

Definition timestamp_ok (t : string) : bool :=
  forallb (fun c => (Py.is_digit c || Ascii.eqb c "_")%bool) (Py.chars t).

Definition is_ascii (x : string) : bool :=
  forallb (fun c => (nat_of_ascii c <? 128)%nat) (Py.chars x).

Example uuid_ok_demo : uuid_ok (uuid4 (Demo.host Demo.good_ffmpeg)) = true.
Proof. reflexivity. Qed.

Example timestamp_ok_demo : timestamp_ok (now (Demo.host Demo.good_ffmpeg)) = true.
Proof. reflexivity. Qed.

Example route_demo :
  Flask.route_download ("/download/" +:+ Demo.mp3_name) = Some Demo.mp3_name.
Proof. reflexivity. Qed.

Example route_rejects_separator :
  Flask.route_download "/download/../etc/passwd" = None.
Proof. reflexivity. Qed.

(* ===================================================================== *)
(** ** Names that [secure_filename] leaves as they are *)
(* ===================================================================== *)

Section CleanNames.

Ltac each_char c :=
  destruct c as [[] [] [] [] [] [] [] []]; intros H; vm_compute in H |- *;
  congruence.

Lemma allowed_not_space (c : ascii) : allowed_char c -> Py.is_space c = false.
Proof. unfold allowed_char. each_char c. Qed.

Lemma allowed_is_ascii (c : ascii) : allowed_char c -> (nat_of_ascii c <? 128)%nat = true.
Proof. unfold allowed_char. each_char c. Qed.

Lemma hex_allowed (c : ascii) : is_hex c = true -> allowed_char c.
Proof. unfold allowed_char. each_char c. Qed.

Lemma stamp_allowed (c : ascii) :
  (Py.is_digit c || Ascii.eqb c "_")%bool = true -> allowed_char c.
Proof. unfold allowed_char. each_char c. Qed.

Lemma replace_char_clean (l : list ascii) :
  Forall allowed_char l -> Py.replace_char "/" " " l = l.
Proof.
  induction 1 as [|c l Hc Hl IH]; [reflexivity|].
  unfold Py.replace_char in *. cbn [map]. rewrite IH.
  destruct (Ascii.eqb_spec c "/") as [->|_]; [discriminate Hc | reflexivity].
Qed.

(** A text without white space is one word. *)
Lemma split_from_word (l cur : list ascii) :
  Forall (fun c => Py.is_space c = false) l ->
  Py.split_from cur l = match rev cur ++ l with [] => [] | w => [w] end.
Proof.
  intros H. revert cur. induction H as [|c l Hc Hl IH]; intros cur.
  - cbn [Py.split_from]. rewrite app_nil_r. destruct cur as [|a cur]; [reflexivity|].
    destruct (rev (a :: cur)) eqn:E; [|reflexivity].
    apply (f_equal (@length ascii)) in E. rewrite length_rev in E. discriminate E.
  - cbn [Py.split_from]. rewrite Hc, IH. cbn [rev]. now rewrite <- app_assoc.
Qed.

Lemma split_word (l : list ascii) :
  Forall allowed_char l -> l <> [] -> Py.split l = [l].
Proof.
  intros H Hne. unfold Py.split. rewrite split_from_word.
  - cbn [rev app]. destruct l; [now destruct Hne | reflexivity].
  - eapply List.Forall_impl; [|exact H]. apply allowed_not_space.
Qed.

Lemma filter_clean (l : list ascii) :
  Forall allowed_char l -> List.filter Werkzeug.allowed l = l.
Proof.
  induction 1 as [|c l Hc Hl IH]; [reflexivity|].
  cbn [List.filter]. now rewrite Hc, IH.
Qed.

Variable fold : string -> string.

Hypothesis fold_ascii : forall x, is_ascii x = true -> fold x = x.

Lemma clean_is_ascii (name : string) :
  Forall allowed_char (Py.chars name) -> is_ascii name = true.
Proof.
  intros H. unfold is_ascii. apply forallb_forall. intros c Hc.
  rewrite List.Forall_forall in H. now apply allowed_is_ascii, H.
Qed.

(** [secure_filename] is the identity on a name made of kept characters
    that neither starts nor ends with a dot or an underscore. *)
Lemma secure_clean (name : string) (c0 c1 : ascii) (l0 l1 : list ascii) :
  Forall allowed_char (Py.chars name) ->
  Py.chars name = c0 :: l0 -> Werkzeug.dot_or_underscore c0 = false ->
  Py.chars name = l1 ++ [c1] -> Werkzeug.dot_or_underscore c1 = false ->
  Werkzeug.secure_filename fold name = name.
Proof.
  intros Hall Hhead Hc0 Hlast Hc1. unfold Werkzeug.secure_filename.
  rewrite fold_ascii by now apply clean_is_ascii.
  rewrite replace_char_clean by exact Hall.
  rewrite split_word; [|exact Hall|now rewrite Hhead].
  cbn [Py.join]. rewrite filter_clean by exact Hall.
  unfold Py.strip. rewrite Hhead, lstrip_id by exact Hc0.
  rewrite <- Hhead, Hlast, rstrip_id by exact Hc1.
  rewrite <- Hlast. apply str_chars.
Qed.

Lemma forallb_Forall_allowed (f : ascii -> bool) (l : list ascii) :
  (forall c, f c = true -> allowed_char c) -> forallb f l = true -> Forall allowed_char l.
Proof.
  intros Hf H. apply List.Forall_forall. intros c Hc.
  rewrite forallb_forall in H. now apply Hf, H.
Qed.

Lemma recording_clean (e : env) (fmt : string) :
  timestamp_ok (now e) = true -> uuid_ok (uuid4 e) = true ->
  fmt = "mp3" \/ fmt = "wav" ->
  Forall allowed_char (Py.chars (recording_name (now e) (unique_id e) fmt)).
Proof.
  intros Hts Hid Hfmt. unfold recording_name. rewrite !chars_app.
  repeat apply Forall_app_2.
  - repeat constructor.
  - exact (forallb_Forall_allowed _ _ stamp_allowed Hts).
  - repeat constructor.
  - unfold unique_id, Py.slice_to. rewrite chars_str.
    exact (forallb_Forall_allowed _ _ hex_allowed Hid).
  - repeat constructor.
  - destruct Hfmt as [-> | ->]; repeat constructor.
Qed.

Lemma recording_secure (e : env) (fmt : string) :
  timestamp_ok (now e) = true -> uuid_ok (uuid4 e) = true ->
  fmt = "mp3" \/ fmt = "wav" ->
  Werkzeug.secure_filename fold (recording_name (now e) (unique_id e) fmt)
  = recording_name (now e) (unique_id e) fmt.
Proof.
  intros Hts Hid Hfmt.
  pose proof (recording_clean e fmt Hts Hid Hfmt) as Hall.
  destruct Hfmt as [-> | ->].
  - apply (secure_clean _ "r" "3"
             (Py.chars ("ecording_" +:+ now e +:+ "_" +:+ unique_id e +:+ "." +:+ "mp3"))
             (Py.chars ((((("recording_" +:+ now e) +:+ "_") +:+ unique_id e) +:+ ".") +:+ "mp")));
      [exact Hall | reflexivity | reflexivity | | reflexivity].
    unfold recording_name. rewrite <- !append_assoc.
    rewrite (chars_app _ "mp3"), (chars_app _ "mp"), <- app_assoc. reflexivity.
  - apply (secure_clean _ "r" "v"
             (Py.chars ("ecording_" +:+ now e +:+ "_" +:+ unique_id e +:+ "." +:+ "wav"))
             (Py.chars ((((("recording_" +:+ now e) +:+ "_") +:+ unique_id e) +:+ ".") +:+ "wa")));
      [exact Hall | reflexivity | reflexivity | | reflexivity].
    unfold recording_name. rewrite <- !append_assoc.
    rewrite (chars_app _ "wav"), (chars_app _ "wa"), <- app_assoc. reflexivity.
Qed.

Lemma route_clean (name : string) :
  Forall allowed_char (Py.chars name) -> name <> "" ->
  Flask.route_download ("/download/" +:+ name) = Some name.
Proof.
  intros Hall Hne. unfold Flask.route_download. rewrite chars_app.
  assert (Hpre : forall p l, Py.startswith p (p ++ l) = true).
  { induction p as [|a p IH]; intros l; [reflexivity|]. cbn [app Py.startswith].
    now rewrite Ascii.eqb_refl, IH. }
  rewrite Hpre. change (skipn 10 (Py.chars "/download/" ++ Py.chars name))
    with (Py.chars name).
  assert (Hno : existsb (Ascii.eqb "/") (Py.chars name) = false).
  { apply not_true_is_false. intros Hex. apply existsb_exists in Hex as (x & Hx & Heq).
    apply Ascii.eqb_eq in Heq. subst x.
    rewrite List.Forall_forall in Hall. now apply (allowed_not_sep _ (Hall _ Hx)). }
  rewrite Hno. destruct (Py.chars name) as [|c l] eqn:E.
  - destruct Hne. apply chars_inj. now rewrite E.
  - rewrite <- E. now rewrite str_chars.
Qed.

End CleanNames.

(* ===================================================================== *)
(** ** What a size text says *)
(* ===================================================================== *)

(** Reading back the [file_size] of a response, the way a client would:
    a decimal number with one or two digits after the point, a space and
    the unit.  The value is in hundredths of a megabyte. *)
Module Reading.

(** The number a run of decimal digits denotes. *)
Definition read_Z (s : string) : option Z :=
  option_map Z.of_int (NilZero.int_of_string s).

(** The text before and after the first point. *)
Fixpoint split_point (l : list ascii) : option (list ascii * list ascii) :=
  match l with
  | [] => None
  | c :: l' =>
      if Ascii.eqb c "." then Some ([], l')
      else option_map (fun ab => (c :: fst ab, snd ab)) (split_point l')
  end.

(** The hundredths that the digits after the point denote. *)
Definition read_frac (f : list ascii) : option Z :=
  match f with
  | [d] => option_map (fun k => 10 * k) (read_Z (Py.str [d]))
  | [d1; d2] => read_Z (Py.str [d1; d2])
  | _ => None
  end.

Definition read_decimal (s : string) : option Z :=
  match split_point (Py.chars s) with
  | Some (i, f) =>
      match read_Z (Py.str i), read_frac f with
      | Some n, Some k => Some (n * 100 + k)
      | _, _ => None
      end
  | None => None
  end.

Definition read_mb (s : string) : option Z :=
  match rev (Py.chars s) with
  | "B"%char :: "M"%char :: " "%char :: r => read_decimal (Py.str (rev r))
  | _ => None
  end.

End Reading.

Example read_mb_eighth : Reading.read_mb "0.12 MB" = Some 12.
Proof. reflexivity. Qed.

Example read_mb_two : Reading.read_mb "2.0 MB" = Some 200.
Proof. reflexivity. Qed.

Example read_mb_garbage : Reading.read_mb "big" = None.
Proof. reflexivity. Qed.

Section ReadingBack.

Definition not_point (c : ascii) : Prop := c <> "."%char.

Lemma split_point_app (a b : list ascii) :
  Forall not_point a -> Reading.split_point (a ++ "."%char :: b) = Some (a, b).
Proof.
  induction 1 as [|c a Hc Ha IH]; [reflexivity|].
  cbn [app Reading.split_point]. rewrite IH.
  destruct (Ascii.eqb_spec c ".") as [E|_]; [now destruct Hc | reflexivity].
Qed.

Lemma uint_digits (d : Decimal.uint) :
  Forall not_point (Py.chars (NilEmpty.string_of_uint d)).
Proof.
  induction d; cbn [NilEmpty.string_of_uint Py.chars list_ascii_of_string];
    constructor; try exact IHd; discriminate.
Qed.

Lemma str_of_Z_digits (z : Z) : 0 <= z -> Forall not_point (Py.chars (Py.str_of_Z z)).
Proof.
  intros Hz. unfold Py.str_of_Z. destruct z as [|p|p]; [| |lia].
  - repeat constructor. discriminate.
  - cbn [Z.to_int NilZero.string_of_int]. unfold NilZero.string_of_uint.
    destruct (Pos.to_uint p) eqn:E; try (rewrite <- E; apply uint_digits).
    repeat constructor. discriminate.
Qed.

Lemma read_str_of_Z (z : Z) : Reading.read_Z (Py.str_of_Z z) = Some z.
Proof.
  unfold Reading.read_Z, Py.str_of_Z. rewrite NilZero.isi.
  - cbn [option_map]. now rewrite DecimalZ.of_to.
  - destruct z; cbn [Z.to_int]; try discriminate.
    intros [= E]. now apply (DecimalPos.Unsigned.to_uint_nonnil p).
  - destruct z; cbn [Z.to_int]; try discriminate.
    intros [= E]. now apply (DecimalPos.Unsigned.to_uint_nonnil p).
Qed.

(** The digits after the point, as [str_of_hundredths] prints them. *)
Definition frac_text (frac : Z) : string :=
  if frac mod 10 =? 0 then Py.str_of_Z (frac / 10)
  else if frac <? 10 then "0" +:+ Py.str_of_Z frac
  else Py.str_of_Z frac.

Lemma read_frac_text (n : nat) :
  (n < 100)%nat -> Reading.read_frac (Py.chars (frac_text (Z.of_nat n))) = Some (Z.of_nat n).
Proof.
  intros H. do 100 (destruct n as [|n]; [vm_compute; reflexivity|]). lia.
Qed.

(** Reading back what [str_of_hundredths] prints gives the hundredths. *)
Lemma read_hundredths (h : Z) :
  0 <= h -> Reading.read_decimal (Py.str_of_hundredths h) = Some h.
Proof.
  intros Hh. unfold Reading.read_decimal, Py.str_of_hundredths.
  fold (frac_text (h mod 100)).
  rewrite chars_app. change (Py.chars ("." +:+ frac_text (h mod 100)))
    with ("."%char :: Py.chars (frac_text (h mod 100))).
  rewrite split_point_app by (apply str_of_Z_digits, Z.div_pos; lia).
  rewrite str_chars, read_str_of_Z.
  pose proof (Z.mod_pos_bound h 100 ltac:(lia)) as Hm.
  rewrite <- (Z2Nat.id (h mod 100)) by lia.
  rewrite read_frac_text by lia. rewrite Z2Nat.id by lia.
  f_equal. pose proof (Z.div_mod h 100 ltac:(lia)). lia.
Qed.

Lemma read_mb_round (size : Z) :
  0 <= Py.mb_hundredths size ->
  Reading.read_mb (Py.str_round_mb size +:+ " MB") = Some (Py.mb_hundredths size).
Proof.
  intros H. unfold Reading.read_mb. rewrite chars_app, rev_app_distr.
  change (rev (Py.chars " MB")) with ["B"%char; "M"%char; " "%char].
  cbn [app]. rewrite rev_involutive, str_chars. now apply read_hundredths.
Qed.

(** [round(size / 2^20, 2)] is the nearest hundredth. *)
Lemma mb_hundredths_close (z : Z) :
  0 <= z ->
  0 <= Py.mb_hundredths z
  /\ 2 * (100 * z - Py.mb_hundredths z * 1048576) <= 1048576
  /\ - 1048576 <= 2 * (100 * z - Py.mb_hundredths z * 1048576).
Proof.
  intros Hz. unfold Py.mb_hundredths. change (1024 * 1024) with 1048576.
  pose proof (Z.div_mod (z * 100) 1048576 ltac:(lia)) as Hdm.
  pose proof (Z.mod_pos_bound (z * 100) 1048576 ltac:(lia)) as Hm.
  assert (Hq : 0 <= z * 100 / 1048576) by (apply Z.div_pos; lia).
  destruct (Z.ltb_spec (2 * ((z * 100) mod 1048576)) 1048576); [lia|].
  destruct (Z.ltb_spec 1048576 (2 * ((z * 100) mod 1048576))); [lia|].
  destruct (Z.even (z * 100 / 1048576)); lia.
Qed.

End ReadingBack.

(* ===================================================================== *)
(** ** The reported size and the file behind the download URL *)
(* ===================================================================== *)

Module Later.

(** After the upload of [upload_mp3_128]: a download of another name, a
    download of the artifact, and the deletion thread of another file. *)
Definition events : list event :=
  [Download "nothing.mp3"; Download Demo.mp3_name; Wake (deletion id "other.wav")].

(** The JSON object of [upload_mp3_128]. *)
Definition data : response_data :=
  {| r_success := true;
     r_filename := Demo.mp3_name;
     r_file_size := "0.0 MB";
     r_download_url := "/download/" +:+ Demo.mp3_name;
     r_format := "MP3";
     r_quality := "128 kbps" |}.

End Later.

(** C4. Take an upload answered 200 whose timestamp and identifier have
    the shape [strftime] and [uuid4] give them and whose output path held
    no directory.  Then the [download_url] of the response routes to
    [download_file] with the artifact's name, and after any sequence of
    downloads and of deletion threads waking for other paths, that is, as
    long as no deletion thread of the artifact has woken, the download
    serves the file at the output path; and the [file_size] of the response
    reads as a number of megabytes with two decimals that is the size in
    bytes of that file divided by [1024 * 1024], to the nearest
    hundredth. *)
Theorem download_size_matches
    (fold : string -> string) (e : env) (rq : upload) (s : state)
    (data : response_data) (s' : state) (evs : list event) :
  (forall x, is_ascii x = true -> fold x = x) ->
  timestamp_ok (now e) = true ->
  uuid_ok (uuid4 e) = true ->
  not_dir (files s) (output_path e rq) ->
  upload_audio e rq s = (Return {| status := 200; payload := Json data |}, s') ->
  Forall (spares (output_path e rq)) evs ->
  exists name content s'' hundredths,
    Flask.route_download (r_download_url data) = Some name /\
    download_file fold name (run fold evs s')
    = (Return {| status := 200;
                 payload := Attachment (output_path e rq) content name
                              "application/octet-stream" |}, s'') /\
    Reading.read_mb (r_file_size data) = Some hundredths /\
    2 * (100 * Z.of_nat (String.length content) - hundredths * 1048576) <= 1048576 /\
    - 1048576 <= 2 * (100 * Z.of_nat (String.length content) - hundredths * 1048576).
Proof.
  intros Hfold Hts Hid Hnd Hrun Hevs.
  destruct (early_response e rq) as [r|] eqn:Hearly.
  { destruct (upload_early e rq s r Hearly) as (s1 & H1 & _).
    rewrite H1 in Hrun. injection Hrun as Hr _. subst r.
    destruct (early_some_cases e rq _ Hearly)
      as [[_ Hst] | [_ [[_ Hr] | [(af & _ & _ & Hr) | (af & _ & _ & _ & Hr)]]]];
      discriminate. }
  destruct (temp_dir_or_not e s) as [[n Hd]|Hfree].
  { destruct (upload_save_fails e rq s n Hearly Hd) as (s1 & H1 & _).
    rewrite H1 in Hrun. discriminate Hrun. }
  destruct (early_none e rq Hearly) as (_ & af & Ha & _ & Hs).
  destruct (upload_staged e rq s af Hearly Ha Hfree)
    as (cmd & b & m & resp & s1 & _ & H1 & Hfiles & _ & _ & _ & Hresp & _).
  rewrite H1 in Hrun. injection Hrun as Hr Hs1. subst resp s1.
  destruct b; [|discriminate Hresp].
  destruct Hresp as (size & Hsz & Hdata). injection Hdata as Hd. subst data.
  pose proof (supported_cases _ Hs) as Hfmt.
  pose proof (recording_clean e (requested_format rq) Hts Hid Hfmt) as Hall.
  fold (output_filename e rq) in Hall.
  assert (Hosep := output_not_sep e rq Hs).
  assert (Hne : temp_input e <> output_path e rq) by apply temp_recording_differ.
  (* the output path holds a regular file of [size] bytes *)
  assert (Hlook : exists content,
             files s' !! output_path e rq = Some (Os.File content) /\
             size = Z.of_nat (String.length content)).
  { assert (Hnd' : not_dir (files s') (output_path e rq)).
    { rewrite Hfiles. intros k. rewrite lookup_delete_ne by exact Hne.
      apply apply_ops_not_dir. intros k'. unfold staged_store.
      rewrite lookup_insert_ne by exact Hne. apply Hnd. }
    unfold Os.getsize in Hsz. rewrite stat_plain in Hsz by exact Hosep.
    destruct (files s' !! output_path e rq) as [[c|k]|] eqn:E.
    - exists c. split; [reflexivity|]. now injection Hsz as <-.
    - now destruct (Hnd' k).
    - discriminate Hsz. }
  destruct Hlook as (content & Hlook & ->).
  exists (output_filename e rq), content.
  (* the download after the events *)
  assert (Hserved : served_path fold (output_filename e rq) = output_path e rq).
  { unfold served_path, output_path, output_filename.
    now rewrite (recording_secure fold Hfold e _ Hts Hid Hfmt). }
  destruct (download_file_run fold (output_filename e rq) (run fold evs s'))
    as (resp & s'' & E & _ & _ & Hcase).
  rewrite Hserved, stat_plain, (run_spares fold _ evs s' Hevs), Hlook in Hcase
    by exact Hosep.
  destruct Hcase as [-> _].
  destruct (mb_hundredths_close (Z.of_nat (String.length content)) ltac:(lia))
    as (H0 & Hup & Hlow).
  exists s'', (Py.mb_hundredths (Z.of_nat (String.length content))).
  split; [|split; [exact E|split; [|split; [exact Hup | exact Hlow]]]].
  - apply route_clean; [exact Hall|].
    unfold output_filename, recording_name. discriminate.
  - cbn [success_data r_file_size]. now apply read_mb_round.
Qed.

Lemma download_size_matches_witness :
  exists name content s'' hundredths,
    Flask.route_download (r_download_url Later.data) = Some name /\
    download_file id name (run id Later.events Served.after_upload)
    = (Return {| status := 200;
                 payload := Attachment Demo.mp3_path content name
                              "application/octet-stream" |}, s'') /\
    Reading.read_mb (r_file_size Later.data) = Some hundredths /\
    2 * (100 * Z.of_nat (String.length content) - hundredths * 1048576) <= 1048576 /\
    - 1048576 <= 2 * (100 * Z.of_nat (String.length content) - hundredths * 1048576).
Proof.
  destruct (upload_total (Demo.host Demo.good_ffmpeg) (Demo.blob (Some "MP3") (Some "128"))
              Demo.fresh) as (resp & s' & E & _).
  assert (Hs : s' = Served.after_upload) by (unfold Served.after_upload; now rewrite E).
  assert (Hr : Return resp
               = fst (upload_audio (Demo.host Demo.good_ffmpeg)
                        (Demo.blob (Some "MP3") (Some "128")) Demo.fresh))
    by (rewrite E; reflexivity).
  vm_compute in Hr. injection Hr as ->. rewrite <- Hs.
  apply (download_size_matches id (Demo.host Demo.good_ffmpeg)
           (Demo.blob (Some "MP3") (Some "128")) Demo.fresh Later.data s' Later.events).
  - intros x _. reflexivity.
  - reflexivity.
  - reflexivity.
  - intros n. vm_compute. discriminate.
  - exact E.
  - repeat constructor. vm_compute. discriminate.
Defined.

(* ===================================================================== *)
(** ** The probe and the conversion, case by case *)
(* ===================================================================== *)

Module Probes.

(** A probe that exits with an error code, one that cannot find the
    binary, and one that may not execute it. *)
Definition broken : exn + completed :=
  inr {| returncode := 1; stdout := ""; stderr := "ffmpeg: error" |}.
Definition missing : exn + completed :=
  inl (Exn FileNotFoundError "[Errno 2] No such file or directory: 'ffmpeg'").
Definition forbidden : exn + completed :=
  inl (Exn OtherException "[Errno 13] Permission denied: 'ffmpeg'").

Definition host (p : exn + completed) : env :=
  {| probe := p;
     uuid4 := "3f2a9c1e-1111-4222-8333-444455556666";
     now := "20240102_030405";
     ffmpeg := Demo.good_ffmpeg |}.

End Probes.

(** X1. [check_ffmpeg] leaves the store and the threads as they are.  It
    answers [True] exactly when the probe completes with return code zero;
    a probe that raises [FileNotFoundError] is answered [False]; any other
    exception of the probe is not caught and leaves [check_ffmpeg]. *)
Theorem check_ffmpeg_verdict (e : env) (s : state) :
  files (snd (check_ffmpeg e s)) = files s
  /\ threads (snd (check_ffmpeg e s)) = threads s
  /\ (fst (check_ffmpeg e s) = Return true <->
      exists r, probe e = inr r /\ returncode r = 0)
  /\ (forall ex, probe e = inl ex -> class_of ex = FileNotFoundError ->
                 fst (check_ffmpeg e s) = Return false)
  /\ (forall ex, probe e = inl ex -> class_of ex <> FileNotFoundError ->
                 fst (check_ffmpeg e s) = Raise ex).
Proof.
  rewrite check_ffmpeg_run. cbn [fst snd]. proj.
  split; [reflexivity|]. split; [reflexivity|]. split; [apply probe_verdict_true|].
  unfold probe_verdict. split; intros ex -> Hc.
  - now rewrite Hc.
  - destruct (class_of ex); try reflexivity. now destruct Hc.
Qed.

Lemma check_ffmpeg_verdict_witness :
  fst (check_ffmpeg (Probes.host Probes.missing) Demo.fresh) = Return false
  /\ fst (check_ffmpeg (Probes.host Probes.forbidden) Demo.fresh)
     = Raise (Exn OtherException "[Errno 13] Permission denied: 'ffmpeg'").
Proof.
  split.
  - destruct (check_ffmpeg_verdict (Probes.host Probes.missing) Demo.fresh)
      as (_ & _ & _ & H & _).
    apply (H _ eq_refl). reflexivity.
  - destruct (check_ffmpeg_verdict (Probes.host Probes.forbidden) Demo.fresh)
      as (_ & _ & _ & _ & H).
    apply (H _ eq_refl). discriminate.
Defined.

(** X2. [convert_audio] catches every exception: whatever the transcoder
    does, it returns a pair.  It starts no thread, and it starts the
    transcoder at most once, with [timeout=120]. *)
Theorem convert_audio_never_raises (e : env) (inp out fmt q : string) (s : state) :
  exists b m s',
    convert_audio e inp out fmt q s = (Return (b, m), s')
    /\ threads s' = threads s
    /\ (spawned s' = spawned s \/ exists cmd, spawned s' = (cmd, Some 120) :: spawned s).
Proof.
  destruct (convert_audio_run e inp out fmt q s)
    as (b & m & s' & Heq & Ht & [(_ & _ & _ & Hsp) | (cmd & _ & _ & _ & Hsp & _)]);
    exists b, m, s'; (split; [exact Heq|]); (split; [exact Ht|]).
  - now left.
  - right. now exists cmd.
Qed.

(** X3. When the input path does not exist, [convert_audio] answers
    [(False, "Input file not found: " + input_path)] without starting the
    transcoder and without touching the store. *)
Theorem convert_audio_missing_input (e : env) (inp out fmt q : string) (s : state) :
  Os.exists_ (files s) inp = false ->
  exists s',
    convert_audio e inp out fmt q s = (Return (false, "Input file not found: " +:+ inp), s')
    /\ files s' = files s /\ spawned s' = spawned s.
Proof.
  intros Hin. unfold convert_audio. unfold_M. proj. rewrite Hin. proj.
  eexists. split; [reflexivity|]. now split.
Qed.

Lemma convert_audio_missing_input_witness :
  exists s',
    convert_audio (Demo.host Demo.good_ffmpeg) Demo.temp_path Demo.mp3_path "mp3" "192"
      Demo.fresh
    = (Return (false, "Input file not found: " +:+ Demo.temp_path), s')
    /\ files s' = files Demo.fresh /\ spawned s' = spawned Demo.fresh.
Proof.
  apply (convert_audio_missing_input (Demo.host Demo.good_ffmpeg)
           Demo.temp_path Demo.mp3_path "mp3" "192" Demo.fresh).
  vm_compute. reflexivity.
Defined.

(** X4. When the input exists and the lower-cased format is neither mp3
    nor wav, [convert_audio] answers [(False, "Unsupported format")] without
    starting the transcoder and without touching the store. *)
Theorem convert_audio_unsupported (e : env) (inp out fmt q : string) (s : state) :
  Os.exists_ (files s) inp = true ->
  Py.lower fmt <> "mp3" -> Py.lower fmt <> "wav" ->
  exists s',
    convert_audio e inp out fmt q s = (Return (false, "Unsupported format"), s')
    /\ files s' = files s /\ spawned s' = spawned s.
Proof.
  intros Hin H3 Hw. unfold convert_audio, build_cmd. unfold_M. proj. rewrite Hin. proj.
  rewrite (proj2 (String.eqb_neq _ _) H3), (proj2 (String.eqb_neq _ _) Hw).
  eexists. split; [reflexivity|]. now split.
Qed.

Lemma convert_audio_unsupported_witness :
  exists s',
    convert_audio (Demo.host Demo.good_ffmpeg) Demo.temp_path Demo.mp3_path "OGG" "192"
      Conversion.staged
    = (Return (false, "Unsupported format"), s')
    /\ files s' = files Conversion.staged /\ spawned s' = spawned Conversion.staged.
Proof.
  apply (convert_audio_unsupported (Demo.host Demo.good_ffmpeg)
           Demo.temp_path Demo.mp3_path "OGG" "192" Conversion.staged).
  - vm_compute. reflexivity.
  - vm_compute. discriminate.
  - vm_compute. discriminate.
Defined.

(* ===================================================================== *)
(** ** More on uploads *)
(* ===================================================================== *)

Section LowerCase.

Lemma lower_char_twice (c : ascii) : Py.lower_char (Py.lower_char c) = Py.lower_char c.
Proof. destruct c as [[] [] [] [] [] [] [] []]; vm_compute; reflexivity. Qed.

Lemma lower_twice (x : string) : Py.lower (Py.lower x) = Py.lower x.
Proof.
  unfold Py.lower. rewrite chars_str, map_map. f_equal.
  apply map_ext. intros c. apply lower_char_twice.
Qed.

End LowerCase.

(** The request with its format field put in lower case. *)
Definition with_lower_format (rq : upload) : upload :=
  {| audio := audio rq;
     form_format := option_map Py.lower (form_format rq);
     form_quality := form_quality rq |}.

(** The request with another quality field. *)
Definition with_quality (q : option string) (rq : upload) : upload :=
  {| audio := audio rq;
     form_format := form_format rq;
     form_quality := q |}.

(** X5. The format field is matched without regard to case: an upload and
    the same upload with its format in lower case have the same response
    and leave the server in the same state. *)
Theorem upload_format_case_insensitive (e : env) (rq : upload) (s : state) :
  upload_audio e (with_lower_format rq) s = upload_audio e rq s.
Proof.
  destruct rq as [a f q].
  assert (H : Py.lower (default "mp3" (option_map Py.lower f)) = Py.lower (default "mp3" f)).
  { destruct f as [x|]; [apply lower_twice | reflexivity]. }
  unfold upload_audio, upload_audio_try, with_lower_format.
  cbn [audio form_format form_quality]. now rewrite H.
Qed.

Example upload_format_upper_case :
  fst (upload_audio (Demo.host Demo.good_ffmpeg) (Demo.blob (Some "WaV") None) Demo.fresh)
  = fst (upload_audio (Demo.host Demo.good_ffmpeg) (Demo.blob (Some "wav") None) Demo.fresh).
Proof. vm_compute. reflexivity. Qed.

(** X7. [upload_audio] catches every exception: it always returns a
    response, with status 200, 400 or 500.  It always runs the probe, and
    it starts the transcoder at most once, after the probe, with the
    command line of the request and [timeout=120]: nothing is retried. *)
Theorem upload_always_answers (e : env) (rq : upload) (s : state) :
  exists resp s',
    upload_audio e rq s = (Return resp, s')
    /\ (status resp = 200 \/ status resp = 400 \/ status resp = 500)
    /\ (spawned s' = probe_call :: spawned s
        \/ exists cmd, command e rq = Some cmd /\
                       spawned s' = (cmd, Some 120) :: probe_call :: spawned s).
Proof.
  destruct (early_response e rq) as [r|] eqn:Hearly.
  - destruct (upload_early e rq s r Hearly) as (s' & H & _ & _ & Hsp).
    exists r, s'. split; [exact H|]. split; [|now left].
    destruct (early_some_cases e rq r Hearly)
      as [[_ Hst] | [_ [[_ ->] | [(af & _ & _ & ->) | (af & _ & _ & _ & ->)]]]]; auto.
  - destruct (temp_dir_or_not e s) as [[n Hd]|Hnd].
    + destruct (upload_save_fails e rq s n Hearly Hd) as (s' & H & _ & _ & Hsp).
      eexists. exists s'. split; [exact H|]. split; [auto | now left].
    + destruct (early_none e rq Hearly) as (_ & af & Ha & _).
      destruct (upload_staged e rq s af Hearly Ha Hnd)
        as (cmd & b & m & resp & s' & Hcmd & H & _ & _ & Hsp & _).
      exists resp, s'. split; [exact H|]. split.
      * destruct (upload_late_status e rq s resp s' Hearly H); auto.
      * right. now exists cmd.
Qed.

(** X8. When the probe exits with a non-zero code or cannot find the
    binary, the upload is answered 500 with the "not installed" message;
    when the probe raises anything else, it is answered 500 with "Server
    error: " and the text of the exception, and the traceback is printed.
    In both cases nothing is staged: the store is as before and the
    transcoder is not started. *)
Theorem upload_without_transcoder (e : env) (rq : upload) (s : state) :
  (((exists r, probe e = inr r /\ returncode r <> 0)
    \/ (exists ex, probe e = inl ex /\ class_of ex = FileNotFoundError)) ->
   exists s',
     upload_audio e rq s
     = (Return (json_error "FFmpeg is not installed on the server. Please install FFmpeg."
                  500), s')
     /\ files s' = files s /\ spawned s' = probe_call :: spawned s)
  /\ (forall ex,
        probe e = inl ex -> class_of ex <> FileNotFoundError ->
        exists s',
          upload_audio e rq s
          = (Return (json_error ("Server error: " +:+ str_of ex) 500), s')
          /\ files s' = files s /\ spawned s' = probe_call :: spawned s
          /\ In (PrintTraceback ex) (console s')).
Proof.
  split.
  - intros Hp.
    assert (Hv : probe_verdict e = Return false).
    { unfold probe_verdict. destruct Hp as [(r & -> & Hrc) | (ex & -> & Hc)].
      - now rewrite (proj2 (Z.eqb_neq _ _) Hrc).
      - now rewrite Hc. }
    destruct (upload_early e rq s
                (json_error "FFmpeg is not installed on the server. Please install FFmpeg."
                   500))
      as (s' & H & Hf & _ & Hsp).
    { unfold early_response. now rewrite Hv. }
    exists s'. split; [exact H|]. split; [exact Hf | exact Hsp].
  - intros ex Hp Hc.
    assert (Hv : probe_verdict e = Raise ex).
    { unfold probe_verdict. rewrite Hp. destruct (class_of ex); try reflexivity.
      now destruct Hc. }
    unfold upload_audio, upload_audio_try. unfold_M.
    rewrite check_ffmpeg_run, Hv. proj.
    eexists. split; [reflexivity|]. proj.
    split; [reflexivity|]. split; [reflexivity|]. now left.
Qed.

Lemma upload_without_transcoder_witness :
  (exists s',
     upload_audio (Probes.host Probes.broken) (Demo.blob None None) Demo.fresh
     = (Return (json_error "FFmpeg is not installed on the server. Please install FFmpeg."
                  500), s')
     /\ files s' = files Demo.fresh /\ spawned s' = probe_call :: spawned Demo.fresh)
  /\ (exists s',
        upload_audio (Probes.host Probes.forbidden) (Demo.blob None None) Demo.fresh
        = (Return (json_error "Server error: [Errno 13] Permission denied: 'ffmpeg'" 500), s')
        /\ files s' = files Demo.fresh /\ spawned s' = probe_call :: spawned Demo.fresh
        /\ In (PrintTraceback (Exn OtherException "[Errno 13] Permission denied: 'ffmpeg'"))
              (console s')).
Proof.
  split.
  - apply (proj1 (upload_without_transcoder (Probes.host Probes.broken)
                    (Demo.blob None None) Demo.fresh)).
    left. eexists. split; [reflexivity|]. discriminate.
  - apply (proj2 (upload_without_transcoder (Probes.host Probes.forbidden)
                    (Demo.blob None None) Demo.fresh)
             (Exn OtherException "[Errno 13] Permission denied: 'ffmpeg'")).
    + reflexivity.
    + discriminate.
Defined.

(** X10. An upload answered 200 names its artifact: the [filename] of the
    response is the generated recording name, its [download_url] is
    ["/download/"] followed by that name, its [format] is ["MP3"] or
    ["WAV"]; and in the state the response is returned in, the output path
    exists and the temporary input does not. *)
Theorem upload_success_artifact
    (e : env) (rq : upload) (s : state) (data : response_data) (s' : state) :
  upload_audio e rq s = (Return {| status := 200; payload := Json data |}, s') ->
  r_filename data = output_filename e rq
  /\ r_download_url data = "/download/" +:+ r_filename data
  /\ (r_format data = "MP3" \/ r_format data = "WAV")
  /\ Os.exists_ (files s') (output_path e rq) = true
  /\ Os.exists_ (files s') (temp_input e) = false.
Proof.
  intros Hrun.
  destruct (early_response e rq) as [r|] eqn:Hearly.
  { destruct (upload_early e rq s r Hearly) as (s1 & H1 & _).
    rewrite H1 in Hrun. injection Hrun as Hr _. subst r.
    destruct (early_some_cases e rq _ Hearly)
      as [[_ Hst] | [_ [[_ Hr] | [(af & _ & _ & Hr) | (af & _ & _ & _ & Hr)]]]];
      discriminate. }
  destruct (temp_dir_or_not e s) as [[n Hd]|Hfree].
  { destruct (upload_save_fails e rq s n Hearly Hd) as (s1 & H1 & _).
    rewrite H1 in Hrun. discriminate Hrun. }
  destruct (early_none e rq Hearly) as (_ & af & Ha & _ & Hs).
  destruct (upload_staged e rq s af Hearly Ha Hfree)
    as (cmd & b & m & resp & s1 & _ & H1 & Hfiles & _ & _ & _ & Hresp & _).
  rewrite H1 in Hrun. injection Hrun as Hr Hs1. subst resp s1.
  destruct b; [|discriminate Hresp].
  destruct Hresp as (size & Hsz & Hdata). injection Hdata as Hd. subst data.
  cbn [success_data r_filename r_download_url r_format].
  split; [reflexivity|]. split; [reflexivity|]. split; [|split].
  - destruct (supported_cases _ Hs) as [-> | ->]; [now left | now right].
  - unfold Os.getsize in Hsz. unfold Os.exists_.
    destruct (Os.stat (files s') (output_path e rq)); [discriminate|reflexivity].
  - rewrite exists_plain by apply temp_not_sep. rewrite Hfiles.
    now rewrite lookup_delete_eq.
Qed.

Lemma upload_success_artifact_witness :
  Os.exists_ (files Served.after_upload) Demo.mp3_path = true
  /\ Os.exists_ (files Served.after_upload) Demo.temp_path = false.
Proof.
  destruct (upload_total (Demo.host Demo.good_ffmpeg) (Demo.blob (Some "MP3") (Some "128"))
              Demo.fresh) as (resp & s' & E & _).
  assert (Hs : s' = Served.after_upload) by (unfold Served.after_upload; now rewrite E).
  assert (Hr : Return resp
               = fst (upload_audio (Demo.host Demo.good_ffmpeg)
                        (Demo.blob (Some "MP3") (Some "128")) Demo.fresh))
    by (rewrite E; reflexivity).
  vm_compute in Hr. injection Hr as ->. rewrite <- Hs.
  destruct (upload_success_artifact (Demo.host Demo.good_ffmpeg)
              (Demo.blob (Some "MP3") (Some "128")) Demo.fresh Later.data s' E)
    as (_ & _ & _ & H1 & H2).
  split; [exact H1 | exact H2].
Defined.

Lemma build_cmd_wav (inp out q : string) :
  build_cmd inp out "wav" q
  = Some ["ffmpeg"; "-i"; inp; "-codec:a"; "pcm_s16le"; "-ar"; "44100"; "-ac"; "2"; "-y"; out].
Proof. reflexivity. Qed.

(** X6. For the format wav the quality field is ignored: whatever it
    holds, the response, the store the upload leaves and the commands it
    starts are those of the same upload with any other quality. *)
Theorem wav_ignores_quality (e : env) (rq : upload) (s : state) (q : option string) :
  requested_format rq = "wav" ->
  fst (upload_audio e (with_quality q rq) s) = fst (upload_audio e rq s)
  /\ files (snd (upload_audio e (with_quality q rq) s)) = files (snd (upload_audio e rq s))
  /\ spawned (snd (upload_audio e (with_quality q rq) s))
     = spawned (snd (upload_audio e rq s)).
Proof.
  intros Hfmt. set (rq' := with_quality q rq).
  assert (Hfmt' : requested_format rq' = "wav") by exact Hfmt.
  destruct (early_response e rq) as [r|] eqn:Hearly.
  - assert (Hearly' : early_response e rq' = Some r) by exact Hearly.
    destruct (upload_early e rq s r Hearly) as (s1 & H1 & Hf1 & _ & Hsp1).
    destruct (upload_early e rq' s r Hearly') as (s2 & H2 & Hf2 & _ & Hsp2).
    rewrite H1, H2. cbn [fst snd]. now rewrite Hf1, Hf2, Hsp1, Hsp2.
  - assert (Hearly' : early_response e rq' = None) by exact Hearly.
    destruct (temp_dir_or_not e s) as [[n Hd]|Hnd].
    + destruct (upload_save_fails e rq s n Hearly Hd) as (s1 & H1 & Hf1 & _ & Hsp1).
      destruct (upload_save_fails e rq' s n Hearly' Hd) as (s2 & H2 & Hf2 & _ & Hsp2).
      rewrite H1, H2. cbn [fst snd]. now rewrite Hf1, Hf2, Hsp1, Hsp2.
    + destruct (early_none e rq Hearly) as (_ & af & Ha & _).
      assert (Ha' : audio rq' = Some af) by exact Ha.
      destruct (upload_staged e rq s af Hearly Ha Hnd)
        as (cmd1 & b1 & m1 & resp1 & s1 & Hc1 & H1 & Hf1 & _ & Hsp1 & Hv1 & Hr1 & _).
      destruct (upload_staged e rq' s af Hearly' Ha' Hnd)
        as (cmd2 & b2 & m2 & resp2 & s2 & Hc2 & H2 & Hf2 & _ & Hsp2 & Hv2 & Hr2 & _).
      assert (Hcmd : cmd2 = cmd1).
      { unfold command in Hc1, Hc2. rewrite Hfmt, build_cmd_wav in Hc1.
        rewrite Hfmt', build_cmd_wav in Hc2.
        change (output_path e rq') with (output_path e rq) in Hc2. congruence. }
      subst cmd2.
      change (staged_store e rq' af s) with (staged_store e rq af s) in Hf2, Hv2.
      change (output_path e rq') with (output_path e rq) in Hv2, Hr2.
      assert (Hfiles : files s2 = files s1) by now rewrite Hf1, Hf2.
      rewrite Hfiles in Hv2, Hr2. rewrite <- Hv1 in Hv2. injection Hv2 as -> ->.
      rewrite H1, H2. cbn [fst snd].
      split; [|split; [exact Hfiles | now rewrite Hsp1, Hsp2]].
      f_equal. destruct b1.
      * destruct Hr1 as (size1 & Hs1 & ->). destruct Hr2 as (size2 & Hs2 & ->).
        assert (size2 = size1) by congruence. subst size2.
        unfold success_data. change (output_filename e rq') with (output_filename e rq).
        now rewrite Hfmt, Hfmt'.
      * now rewrite Hr1, Hr2.
Qed.

Lemma wav_ignores_quality_witness :
  fst (upload_audio (Demo.host Demo.good_ffmpeg)
         (with_quality (Some "320") (Demo.blob (Some "wav") None)) Demo.fresh)
  = fst (upload_audio (Demo.host Demo.good_ffmpeg) (Demo.blob (Some "wav") None) Demo.fresh).
Proof.
  apply (wav_ignores_quality (Demo.host Demo.good_ffmpeg) (Demo.blob (Some "wav") None)
           Demo.fresh (Some "320")).
  vm_compute. reflexivity.
Defined.

Section Frame.

Implicit Types (σ : Os.store) (p : string).

(** What a process does at a path depends on that path alone. *)
Lemma apply_op_local σ1 σ2 (op : Os.file_op) p :
  σ1 !! p = σ2 !! p -> Os.apply_op σ1 op !! p = Os.apply_op σ2 op !! p.
Proof.
  intros H. destruct op as [w c|u]; cbn [Os.apply_op].
  - destruct (decide (w = p)) as [->|Hne].
    + rewrite <- H. destruct (σ1 !! p) as [[c'|n]|] eqn:E;
        rewrite ?lookup_insert_eq, ?E; try reflexivity; now rewrite H.
    + assert (A : forall σ, match σ !! w with
                            | Some (Os.Dir _) => σ
                            | _ => <[w := Os.File c]> σ
                            end !! p = σ !! p).
      { intros σ. destruct (σ !! w) as [[c'|n]|];
          rewrite ?lookup_insert_ne by exact Hne; reflexivity. }
      now rewrite !A.
  - destruct (decide (u = p)) as [->|Hne].
    + rewrite <- H. destruct (σ1 !! p) as [[c'|n]|] eqn:E;
        rewrite ?lookup_delete_eq, ?E; try reflexivity; now rewrite H.
    + assert (A : forall σ, match σ !! u with
                            | Some (Os.File _) => delete u σ
                            | _ => σ
                            end !! p = σ !! p).
      { intros σ. destruct (σ !! u) as [[c'|n]|];
          rewrite ?lookup_delete_ne by exact Hne; reflexivity. }
      now rewrite !A.
Qed.

Lemma apply_ops_local (ops : list Os.file_op) σ1 σ2 p :
  σ1 !! p = σ2 !! p -> Os.apply_ops σ1 ops !! p = Os.apply_ops σ2 ops !! p.
Proof.
  revert σ1 σ2. induction ops as [|op ops IH]; intros σ1 σ2 H; [exact H|].
  apply IH, apply_op_local, H.
Qed.

End Frame.

(** X9. An upload writes nothing of its own that it does not remove.
    When it has not started the transcoder, the store is as it was; when
    it has, the temporary input is gone and every other path holds what
    the transcoder's file operations make of the store as it was. *)
Theorem upload_store_frame
    (e : env) (rq : upload) (s : state) (resp : response) (s' : state) :
  upload_audio e rq s = (Return resp, s') ->
  (spawned s' = probe_call :: spawned s -> files s' = files s)
  /\ (forall cmd af,
        spawned s' = (cmd, Some 120) :: probe_call :: spawned s ->
        audio rq = Some af ->
        files s' !! temp_input e = None
        /\ forall p, p <> temp_input e ->
             files s' !! p
             = Os.apply_ops (files s) (snd (ffmpeg e cmd (staged_store e rq af s))) !! p).
Proof.
  intros Hrun.
  assert (Hno : forall cmd (l : list (list string * option Z)),
             probe_call :: l <> (cmd, Some 120) :: probe_call :: l).
  { intros cmd l H. apply (f_equal (@length _)) in H. cbn [length] in H. lia. }
  destruct (early_response e rq) as [r|] eqn:Hearly.
  - destruct (upload_early e rq s r Hearly) as (s1 & H1 & Hf & _ & Hsp).
    rewrite H1 in Hrun. injection Hrun as _ <-. split; [now intros _|].
    intros cmd af H. rewrite Hsp in H. now destruct (Hno _ _ H).
  - destruct (temp_dir_or_not e s) as [[n Hd]|Hnd].
    + destruct (upload_save_fails e rq s n Hearly Hd) as (s1 & H1 & Hf & _ & Hsp).
      rewrite H1 in Hrun. injection Hrun as _ <-. split; [now intros _|].
      intros cmd af H. rewrite Hsp in H. now destruct (Hno _ _ H).
    + destruct (early_none e rq Hearly) as (_ & af & Ha & _).
      destruct (upload_staged e rq s af Hearly Ha Hnd)
        as (cmd & b & m & resp1 & s1 & _ & H1 & Hf & _ & Hsp & _).
      rewrite H1 in Hrun. injection Hrun as _ <-. split.
      * intros H. rewrite Hsp in H. symmetry in H. now destruct (Hno _ _ H).
      * intros cmd' af' H Ha'. rewrite Hsp in H. injection H as <-.
        assert (af' = af) by congruence. subst af'.
        rewrite Hf. split; [apply lookup_delete_eq|].
        intros p Hp. rewrite lookup_delete_ne by (intros E; now apply Hp).
        apply apply_ops_local. unfold staged_store.
        apply lookup_insert_ne. intros E. now apply Hp.
Qed.

Lemma upload_store_frame_witness :
  files Served.after_upload !! Demo.temp_path = None
  /\ files Served.after_upload !! "static/temp"
     = Os.apply_ops (files Demo.fresh) [Os.Write Demo.mp3_path "ID3data"] !! "static/temp".
Proof.
  destruct (upload_total (Demo.host Demo.good_ffmpeg) (Demo.blob (Some "MP3") (Some "128"))
              Demo.fresh) as (resp & s' & E & _).
  assert (Hs : s' = Served.after_upload) by (unfold Served.after_upload; now rewrite E).
  rewrite <- Hs.
  destruct (proj2 (upload_store_frame _ _ _ _ _ E) (Conversion.mp3_cmd "128")
              {| filename := "blob"; stream := "webmbytes" |}) as [H1 H2].
  - rewrite Hs. vm_compute. reflexivity.
  - reflexivity.
  - split; [exact H1|]. apply (H2 "static/temp"). discriminate.
Defined.

(* ===================================================================== *)
(** ** More on downloads and deletion *)
(* ===================================================================== *)

Section ThreadFacts.

Lemma thread_eqb_refl (t : thread) : thread_eqb t t = true.
Proof. unfold thread_eqb. now rewrite Z.eqb_refl, !String.eqb_refl. Qed.

End ThreadFacts.

(** X11. From a download to the expiry.  When [download_file] finds a
    regular file, then once the thread it has started wakes, the file is
    removed from the store, the thread is over, and the same download is
    answered 404 "File not found", like a name that never existed. *)
Theorem download_then_expiry
    (fold : string -> string) (name content : string) (s : state) :
  Os.stat (files s) (served_path fold name) = inr (Os.File content) ->
  let s1 := snd (download_file fold name s) in
  let s2 := wake (deletion fold name) s1 in
  threads s1 = deletion fold name :: threads s
  /\ files s2 = delete (served_path fold name) (files s)
  /\ threads s2 = threads s
  /\ fst (download_file fold name s2) = Return (json_error "File not found" 404).
Proof.
  intros Hstat s1 s2.
  destruct (stat_file _ _ _ Hstat) as [Hsep Hlook].
  destruct (download_file_run fold name s) as (resp & s1' & E & Hf & Hsp & Hcase).
  rewrite Hstat in Hcase. destruct Hcase as [_ Ht].
  assert (Hs1 : s1 = s1') by (unfold s1; now rewrite E).
  assert (Hwake : files s2 = delete (served_path fold name) (files s)
                  /\ threads s2 = threads s).
  { unfold s2, wake. rewrite Hs1, Ht. cbn [existsb]. rewrite thread_eqb_refl. cbn [orb].
    cbn [files threads]. rewrite !delete_after_delay_run. cbn [closure_file_path deletion].
    rewrite Hf. unfold Os.exists_, Os.remove. rewrite Hstat. cbn [snd].
    proj. rewrite Ht. cbn [end_thread]. now rewrite thread_eqb_refl. }
  destruct Hwake as [Hfiles Hthreads].
  split; [now rewrite Hs1|]. split; [exact Hfiles|]. split; [exact Hthreads|].
  destruct (download_file_run fold name s2) as (resp2 & s3 & E2 & _ & _ & Hcase2).
  rewrite stat_plain, Hfiles, lookup_delete_eq in Hcase2 by exact Hsep.
  destruct Hcase2 as [-> _]. now rewrite E2.
Qed.

Lemma download_then_expiry_witness :
  files (wake (deletion id Demo.mp3_name)
           (snd (download_file id Demo.mp3_name Served.after_upload)))
  = delete (served_path id Demo.mp3_name) (files Served.after_upload)
  /\ fst (download_file id Demo.mp3_name
            (wake (deletion id Demo.mp3_name)
               (snd (download_file id Demo.mp3_name Served.after_upload))))
     = Return (json_error "File not found" 404).
Proof.
  destruct (download_then_expiry id Demo.mp3_name "ID3data" Served.after_upload)
    as (_ & H1 & _ & H2).
  - vm_compute. reflexivity.
  - split; [exact H1 | exact H2].
Defined.

(** X12. The body of a deletion thread catches every exception.  It
    touches no path but its own, it never removes a directory, and it
    starts neither a thread nor a process. *)
Theorem delete_after_delay_frame (t : thread) (s : state) :
  exists s',
    delete_after_delay t s = (Return tt, s')
    /\ threads s' = threads s /\ spawned s' = spawned s
    /\ (forall p, p <> closure_file_path t -> files s' !! p = files s !! p)
    /\ (forall p n, files s !! p = Some (Os.Dir n) -> files s' !! p = Some (Os.Dir n)).
Proof.
  rewrite delete_after_delay_run.
  destruct (Os.exists_ (files s) (closure_file_path t)).
  - destruct (Os.remove (files s) (closure_file_path t)) as [ex|σ] eqn:Hrm.
    + eexists. split; [reflexivity|]. proj. now repeat split.
    + eexists. split; [reflexivity|]. proj.
      destruct (remove_inr _ _ _ Hrm) as (-> & c & Hstat).
      destruct (stat_file _ _ _ Hstat) as [_ Hlook].
      split; [reflexivity|]. split; [reflexivity|]. split.
      * intros p Hp. apply lookup_delete_ne. intros E. now apply Hp.
      * intros p n Hd. rewrite lookup_delete_ne; [exact Hd|].
        intros <-. congruence.
  - exists s. now repeat split.
Qed.

Lemma delete_after_delay_frame_witness :
  exists s',
    delete_after_delay (deletion id "..") Served.after_upload = (Return tt, s')
    /\ files s' !! Demo.mp3_path = files Served.after_upload !! Demo.mp3_path
    /\ files s' !! "static/temp" = Some (Os.Dir 4096).
Proof.
  destruct (delete_after_delay_frame (deletion id "..") Served.after_upload)
    as (s' & H & _ & _ & Hp & Hd).
  exists s'. split; [exact H|]. split.
  - apply Hp. vm_compute. discriminate.
  - apply Hd. vm_compute. reflexivity.
Defined.

Section Stripping.

Implicit Types (set : ascii -> bool) (l : list ascii).




End Stripping.

Section Stable.

Variable fold : string -> string.

Hypothesis fold_ascii : forall x, is_ascii x = true -> fold x = x.



End Stable.



(* ===================================================================== *)
(** ** The two status pages: [index] and [debug] *)
(* ===================================================================== *)

Module Pages.

(** [index]: the probe, a warning when it fails, and the page.  The
    result of [render_template('index.html')] is the name of the template.
    Nothing around the probe catches what it raises. *)
Definition index (e : env) : M string :=
  ffmpeg_available ← check_ffmpeg e;
  when (negb ffmpeg_available) (print "WARNING: FFmpeg is not available!");;
  mret "index.html".

(** The name under which [key] is an entry of the directory [dir]: the
    rest of [key] after [dir] and a separator, when that rest is not empty
    and holds no separator. *)
Definition child_name (dir key : string) : option string :=
  let prefix := Py.chars dir ++ ["/"%char] in
  let k := Py.chars key in
  if Py.startswith prefix k then
    match skipn (length prefix) k with
    | [] => None
    | rest => if existsb (Ascii.eqb "/") rest then None else Some (Py.str rest)
    end
  else None.

(** [os.listdir(p)] for a path without trailing separator.  The order of
    the names is left open by [os.listdir]; here it is the order of the
    store's keys. *)
Definition listdir (σ : Os.store) (p : string) : exn + list string :=
  match Os.stat σ p with
  | inr (Os.Dir _) => inr (omap (fun kv => child_name p (fst kv)) (map_to_list σ))
  | inr (Os.File _) => inl (Os.enotdir p)
  | inl ex => inl ex
  end.

(** The JSON object of [debug]. *)
Record debug_data := {
  d_ffmpeg_available : bool;
  d_temp_folder : string;
  d_temp_files : list string;
  d_timestamp : string }.

(** [debug], with [isoformat] for [datetime.now().isoformat()].  The
    probe is outside the [try]; the bare [except] keeps [temp_files]
    empty when [os.listdir] raises. *)
Definition debug (e : env) (isoformat : string) : M debug_data :=
  ffmpeg_status ← check_ffmpeg e;
  temp_files ← try_except (lift (fun σ => listdir σ UPLOAD_FOLDER))
                          (fun _ => mret []);
  mret {| d_ffmpeg_available := ffmpeg_status;
          d_temp_folder := UPLOAD_FOLDER;
          d_temp_files := temp_files;
          d_timestamp := isoformat |}.

End Pages.

Example debug_after_upload :
  fst (Pages.debug (Demo.host Demo.good_ffmpeg) "2024-01-02T03:04:06" Served.after_upload)
  = Return {| Pages.d_ffmpeg_available := true;
              Pages.d_temp_folder := "static/temp";
              Pages.d_temp_files := [Demo.mp3_name];
              Pages.d_timestamp := "2024-01-02T03:04:06" |}.
Proof. vm_compute. reflexivity. Qed.

Section Listing.

Lemma startswith_app (p l : list ascii) : Py.startswith p (p ++ l) = true.
Proof.
  induction p as [|a p IH]; [reflexivity|]. cbn [app Py.startswith].
  now rewrite Ascii.eqb_refl, IH.
Qed.

Lemma startswith_split (p l : list ascii) :
  Py.startswith p l = true -> l = p ++ skipn (length p) l.
Proof.
  revert l. induction p as [|a p IH]; intros l H; [reflexivity|].
  destruct l as [|b l]; [discriminate H|]. cbn [Py.startswith] in H.
  apply andb_true_iff in H as [Hab Hrest]. apply Ascii.eqb_eq in Hab. subst b.
  cbn [length skipn app]. f_equal. now apply IH.
Qed.

Lemma skipn_prefix (p l : list ascii) : skipn (length p) (p ++ l) = l.
Proof. induction p as [|a p IH]; [reflexivity|]. exact IH. Qed.

Lemma existsb_sep (l : list ascii) :
  existsb (Ascii.eqb "/") l = false <-> ~ In "/"%char l.
Proof.
  split.
  - intros H Hin. assert (existsb (Ascii.eqb "/") l = true); [|congruence].
    apply existsb_exists. exists "/"%char. split; [exact Hin | reflexivity].
  - intros H. apply not_true_is_false. intros Hex.
    apply existsb_exists in Hex as (x & Hx & Heq). apply Ascii.eqb_eq in Heq. now subst x.
Qed.

(** [child_name] finds exactly the entries directly under the directory. *)
Lemma child_name_spec (dir key name : string) :
  Pages.child_name dir key = Some name <->
  key = dir +:+ "/" +:+ name /\ name <> "" /\ ~ In "/"%char (Py.chars name).
Proof.
  unfold Pages.child_name. split.
  - destruct (Py.startswith (Py.chars dir ++ ["/"%char]) (Py.chars key)) eqn:Hs;
      [|discriminate].
    apply startswith_split in Hs.
    destruct (skipn (length (Py.chars dir ++ ["/"%char])) (Py.chars key))
      as [|c rest] eqn:Hrest; [discriminate|].
    destruct (existsb (Ascii.eqb "/") (c :: rest)) eqn:Hex; [discriminate|].
    intros H. assert (Hname : name = Py.str (c :: rest)) by congruence.
    subst name. clear H. split; [|split].
    + apply chars_inj. rewrite Hs, !chars_app, chars_str, <- app_assoc. reflexivity.
    + intros E. apply (f_equal Py.chars) in E. rewrite chars_str in E. discriminate E.
    + rewrite chars_str. now apply existsb_sep.
  - intros (-> & Hne & Hno).
    assert (Hk : Py.chars (dir +:+ "/" +:+ name)
                 = (Py.chars dir ++ ["/"%char]) ++ Py.chars name).
    { rewrite !chars_app, <- app_assoc. reflexivity. }
    rewrite Hk, startswith_app, skipn_prefix.
    destruct (Py.chars name) as [|c rest] eqn:E.
    + destruct Hne. apply chars_inj. now rewrite E.
    + rewrite (proj2 (existsb_sep _) Hno), <- E. now rewrite str_chars.
Qed.

End Listing.

(** X14. [index] serves the page whether or not the transcoder is there:
    when the probe completes or cannot find the binary the answer is the
    page, with the warning printed exactly when the probe did not succeed;
    any other exception of the probe leaves [index] uncaught.  In every
    case the store and the threads are untouched. *)
Theorem index_serves_page (e : env) (s : state) :
  files (snd (Pages.index e s)) = files s
  /\ threads (snd (Pages.index e s)) = threads s
  /\ (forall r, probe e = inr r -> returncode r = 0 ->
        fst (Pages.index e s) = Return "index.html"
        /\ console (snd (Pages.index e s)) = console s)
  /\ ((exists r, probe e = inr r /\ returncode r <> 0)
      \/ (exists ex, probe e = inl ex /\ class_of ex = FileNotFoundError) ->
        fst (Pages.index e s) = Return "index.html"
        /\ console (snd (Pages.index e s))
           = Print "WARNING: FFmpeg is not available!" :: console s)
  /\ (forall ex, probe e = inl ex -> class_of ex <> FileNotFoundError ->
        fst (Pages.index e s) = Raise ex).
Proof.
  unfold Pages.index. unfold_M. rewrite check_ffmpeg_run. unfold probe_verdict.
  destruct (probe e) as [ex|r] eqn:Hp.
  - destruct (class_of ex) eqn:Hc; proj;
      (split; [reflexivity|]); (split; [reflexivity|]);
      (split; [intros r [=]|]); split;
      try (intros _; now split); try (intros ex' [= <-] Hne; congruence);
      try (intros [(r & [=] & _) | (ex' & [= <-] & Hc')]; congruence).
  - destruct (returncode r =? 0) eqn:Hrc; proj;
      (split; [reflexivity|]); (split; [reflexivity|]); split.
    + intros _ _ _. now split.
    + split; [|intros ex [=]].
      intros [(r' & [= <-] & Hne) | (ex & [=] & _)].
      apply Z.eqb_eq in Hrc. congruence.
    + intros r' [= <-] H0. apply Z.eqb_neq in Hrc. congruence.
    + split; [|intros ex [=]]. intros _. now split.
Qed.

Lemma index_serves_page_witness :
  fst (Pages.index (Probes.host Probes.missing) Demo.fresh) = Return "index.html"
  /\ console (snd (Pages.index (Probes.host Probes.missing) Demo.fresh))
     = Print "WARNING: FFmpeg is not available!" :: console Demo.fresh.
Proof.
  destruct (index_serves_page (Probes.host Probes.missing) Demo.fresh)
    as (_ & _ & _ & H & _).
  apply H. right. eexists. split; reflexivity.
Defined.

(** X15. [debug] touches neither the store nor the threads.  When the
    probe raises nothing but [FileNotFoundError], [debug] answers with the
    scratch folder's path and the given timestamp; when the scratch folder
    is a directory of the store, [temp_files] holds exactly the non-empty,
    separator-free names under which the store has an entry in that
    folder, and when it is not, [temp_files] is empty. *)
Theorem debug_lists_scratch (e : env) (iso : string) (s : state) (available : bool) :
  probe_verdict e = Return available ->
  exists data s',
    Pages.debug e iso s = (Return data, s')
    /\ files s' = files s /\ threads s' = threads s
    /\ Pages.d_ffmpeg_available data = available
    /\ Pages.d_temp_folder data = UPLOAD_FOLDER
    /\ Pages.d_timestamp data = iso
    /\ ((exists n, files s !! UPLOAD_FOLDER = Some (Os.Dir n)) ->
        forall name,
          In name (Pages.d_temp_files data) <->
          (name <> "" /\ ~ In "/"%char (Py.chars name)
           /\ is_Some (files s !! (UPLOAD_FOLDER +:+ "/" +:+ name))))
    /\ ((forall n, files s !! UPLOAD_FOLDER <> Some (Os.Dir n)) ->
        Pages.d_temp_files data = []).
Proof.
  intros Hv. unfold Pages.debug. unfold_M. rewrite check_ffmpeg_run, Hv. proj.
  unfold Pages.listdir. rewrite stat_plain by reflexivity.
  destruct (files s !! UPLOAD_FOLDER) as [[c|n]|] eqn:Hdir; proj;
    do 2 eexists; (split; [reflexivity|]); proj;
    cbn [Pages.d_ffmpeg_available Pages.d_temp_folder Pages.d_timestamp Pages.d_temp_files];
    (do 5 (split; [reflexivity|])); split.
  - intros [k Hk]. discriminate Hk.
  - reflexivity.
  - intros _ name. rewrite <- list_elem_of_In, list_elem_of_omap. split.
    + intros ([k v] & Hin & Hc). apply elem_of_map_to_list in Hin. cbn [fst] in Hc.
      apply child_name_spec in Hc as (-> & Hne & Hno).
      split; [exact Hne|]. split; [exact Hno|]. now exists v.
    + intros (Hne & Hno & [v Hlook]). exists (UPLOAD_FOLDER +:+ "/" +:+ name, v).
      split; [now apply elem_of_map_to_list|]. cbn [fst]. now apply child_name_spec.
  - intros Hnd. now destruct (Hnd n).
  - intros [k Hk]. discriminate Hk.
  - reflexivity.
Qed.

Lemma debug_lists_scratch_witness :
  exists data s',
    Pages.debug (Demo.host Demo.good_ffmpeg) "2024-01-02T03:04:06" Served.after_upload
    = (Return data, s')
    /\ In Demo.mp3_name (Pages.d_temp_files data)
    /\ ~ In "temp_3f2a9c1e.webm" (Pages.d_temp_files data).
Proof.
  destruct (debug_lists_scratch (Demo.host Demo.good_ffmpeg) "2024-01-02T03:04:06"
              Served.after_upload true eq_refl)
    as (data & s' & E & _ & _ & _ & _ & _ & Hlist & _).
  exists data, s'. split; [exact E|].
  assert (Hdir : exists n, files Served.after_upload !! UPLOAD_FOLDER = Some (Os.Dir n)).
  { exists 4096. vm_compute. reflexivity. }
  split.
  - apply (Hlist Hdir). split; [discriminate|]. split.
    + vm_compute. intuition discriminate.
    + eexists. vm_compute. reflexivity.
  - intros H. apply (Hlist Hdir) in H as (_ & _ & [v Hv]). vm_compute in Hv. discriminate Hv.
Defined.

(* ===================================================================== *)
(** ** Names and sizes *)
(* ===================================================================== *)

Section Names.

Lemma append_inv_head (a x y : string) : a +:+ x = a +:+ y -> x = y.
Proof.
  intros H. apply chars_inj. apply (f_equal Py.chars) in H.
  rewrite !chars_app in H. exact (app_inv_head _ _ _ H).
Qed.

Lemma append_inv_tail (b x y : string) : x +:+ b = y +:+ b -> x = y.
Proof.
  intros H. apply chars_inj. apply (f_equal Py.chars) in H.
  rewrite !chars_app in H. exact (app_inv_tail _ _ _ H).
Qed.

Lemma temp_recording_apart (a t b f : string) :
  Os.path_join UPLOAD_FOLDER (temp_name a)
  <> Os.path_join UPLOAD_FOLDER (recording_name t b f).
Proof. rewrite temp_path_eq, recording_path_eq. simpl. discriminate. Qed.

End Names.

(** X16. Two requests stage their input at the same path only when their
    identifiers are the same, and the temporary path of a request is never
    the output path of any request: the clean-up of an input cannot remove
    an artifact. *)
Theorem staged_paths_apart (e1 e2 : env) (rq2 : upload) :
  (temp_input e1 = temp_input e2 <-> unique_id e1 = unique_id e2)
  /\ temp_input e1 <> output_path e2 rq2.
Proof.
  split; [split|].
  - unfold temp_input. rewrite !temp_path_eq. intros H.
    apply append_inv_tail in H. now apply append_inv_head in H.
  - unfold temp_input. now intros ->.
  - apply temp_recording_apart.
Qed.

(** X17. The [file_size] of every 200 response of [upload_audio] reads as
    a number of megabytes with two decimals, and that number is the size of
    the output file, as [os.path.getsize] gives it when the response is
    built, divided by [1024 * 1024], to the nearest hundredth: the two
    differ by 0.005 MB at most. *)
Theorem reported_size_is_close
    (e : env) (rq : upload) (s : state) (data : response_data) (s' : state) :
  upload_audio e rq s = (Return {| status := 200; payload := Json data |}, s') ->
  exists size,
    Os.getsize (files s') (output_path e rq) = inr size
    /\ (0 <= size ->
        exists hundredths,
          Reading.read_mb (r_file_size data) = Some hundredths
          /\ 0 <= hundredths
          /\ 2 * (100 * size - hundredths * 1048576) <= 1048576
          /\ - 1048576 <= 2 * (100 * size - hundredths * 1048576)).
Proof.
  intros Hrun.
  destruct (early_response e rq) as [r|] eqn:Hearly.
  { destruct (upload_early e rq s r Hearly) as (s1 & H1 & _).
    rewrite H1 in Hrun. injection Hrun as Hr _. subst r.
    destruct (early_some_cases e rq _ Hearly)
      as [[_ Hst] | [_ [[_ Hr] | [(af & _ & _ & Hr) | (af & _ & _ & _ & Hr)]]]];
      discriminate. }
  destruct (temp_dir_or_not e s) as [[n Hd]|Hfree].
  { destruct (upload_save_fails e rq s n Hearly Hd) as (s1 & H1 & _).
    rewrite H1 in Hrun. discriminate Hrun. }
  destruct (early_none e rq Hearly) as (_ & af & Ha & _ & Hs).
  destruct (upload_staged e rq s af Hearly Ha Hfree)
    as (cmd & b & m & resp & s1 & _ & H1 & _ & _ & _ & _ & Hresp & _).
  rewrite H1 in Hrun. injection Hrun as Hr Hs1. subst resp s1.
  destruct b; [|discriminate Hresp].
  destruct Hresp as (size & Hsz & Hdata). injection Hdata as Hd. subst data.
  exists size. split; [exact Hsz|]. intros Hpos.
  destruct (mb_hundredths_close size Hpos) as (H0 & Hup & Hlow).
  exists (Py.mb_hundredths size). cbn [success_data r_file_size].
  split; [now apply read_mb_round|]. now repeat split.
Qed.

Lemma reported_size_is_close_witness :
  exists hundredths,
    Reading.read_mb (r_file_size Later.data) = Some hundredths
    /\ 2 * (100 * 7 - hundredths * 1048576) <= 1048576
    /\ - 1048576 <= 2 * (100 * 7 - hundredths * 1048576).
Proof.
  destruct (upload_total (Demo.host Demo.good_ffmpeg) (Demo.blob (Some "MP3") (Some "128"))
              Demo.fresh) as (resp & s' & E & _).
  assert (Hs : s' = Served.after_upload) by (unfold Served.after_upload; now rewrite E).
  assert (Hr : Return resp
               = fst (upload_audio (Demo.host Demo.good_ffmpeg)
                        (Demo.blob (Some "MP3") (Some "128")) Demo.fresh))
    by (rewrite E; reflexivity).
  vm_compute in Hr. injection Hr as ->.
  destruct (reported_size_is_close (Demo.host Demo.good_ffmpeg)
              (Demo.blob (Some "MP3") (Some "128")) Demo.fresh Later.data s' E)
    as (size & Hsz & H).
  assert (Hseven : size = 7).
  { rewrite Hs in Hsz. vm_compute in Hsz. now injection Hsz as <-. }
  subst size. destruct (H ltac:(lia)) as (h & Hread & _ & Hup & Hlow).
  exists h. split; [exact Hread|]. split; [exact Hup | exact Hlow].
Defined.

Lemma staged_paths_apart_witness :
  temp_input (Demo.host Demo.good_ffmpeg)
  <> output_path (Probes.host Probes.missing) (Demo.blob (Some "wav") None).
Proof.
  exact (proj2 (staged_paths_apart (Demo.host Demo.good_ffmpeg) (Probes.host Probes.missing)
                  (Demo.blob (Some "wav") None))).
Defined.
